(** * pysmu: the Python binding of libsmu (bindings/python/pysmu/libsmu.pyx)

  A shallow embedding of the Cython binding: the classes [Session],
  [Device] and [Channel] and the enums [Mode] and [LED].  The C++ library
  underneath ([cpp_libsmu]) is not part of the binding: every method of
  [smu::Session] and [smu::Device] the binding calls is a parameter, a
  function on an abstract library state [B].  Python code is written in a
  small state-and-exception monad whose state holds the library state and
  the log of the C++ calls made so far. *)

From Stdlib Require Import ZArith List String Ascii Bool Lia.
From Stdlib Require Import Floats DecimalString Permutation.
Import ListNotations.
Open Scope string_scope.
Open Scope list_scope.
Open Scope Z_scope.

(** ** The interpreter *)

(** The module is written for Python 2.7 with the enum34 backport and for
    Python 3.4 and later (lines 7-12 and 25-26).  Where the two behave
    differently the interpreter the module runs on is a parameter of the
    definitions below. *)
Inductive interpreter := Python2 | Python3.

(** ** Python values and exceptions *)

(** [class Mode(Enum)] *)
Module Mode.
Inductive t := HI_Z | SVMI | SIMV.

Definition value (m : t) : Z :=
  match m with HI_Z => 0 | SVMI => 1 | SIMV => 2 end.

Definition name (m : t) : string :=
  match m with HI_Z => "HI_Z" | SVMI => "SVMI" | SIMV => "SIMV" end.

(** Members as iteration over the class yields them: in definition order,
    which for this class is also the order of the values. *)
Definition members : list t := [HI_Z; SVMI; SIMV].

Definition eqb (a b : t) : bool := value a =? value b.

(** [Mode(v)]: lookup of a member by value. *)
Definition of_value (v : Z) : option t :=
  find (fun m => value m =? v) members.
End Mode.

(** [class LED(Enum)] *)
Module LED.
Inductive t := red | green | blue | all.

Definition value (l : t) : Z :=
  match l with red => 47 | green => 29 | blue => 28 | all => 0 end.

Definition name (l : t) : string :=
  match l with
  | red => "red" | green => "green" | blue => "blue" | all => "all"
  end.

(** Members as iteration over the class yields them.  Python 3 iterates in
    definition order.  On Python 2 the definition order is lost before
    enum34 can record it, and as the class gives no [__order__] the members
    are ordered by value. *)
Definition members (python : interpreter) : list t :=
  match python with
  | Python2 => [all; blue; green; red]
  | Python3 => [red; green; blue; all]
  end.

Definition eqb (a b : t) : bool := value a =? value b.
End LED.

(** The Python objects that reach the binding's dynamically typed
    parameters.  A [PyStr] holds ASCII text, so that [.encode()] gives the
    same bytes on both interpreters. *)
Inductive pyval :=
| PyNone
| PyBool (b : bool)
| PyInt (z : Z)
| PyStr (s : string)
| PyMode (m : Mode.t)
| PyLED (l : LED.t).

(** [x in Mode], [x in LED]: membership in an enum class is membership of an
    instance of that class, with enum34 as with the enum module of Python
    3.4 to 3.7; a bare value such as [1] is not a member. *)
Definition in_Mode (v : pyval) : bool :=
  match v with PyMode _ => true | _ => false end.

Definition in_LED (v : pyval) : bool :=
  match v with PyLED _ => true | _ => false end.

Definition str_int (z : Z) : string := NilZero.string_of_int (Z.to_int z).

(** [str(v)] *)
Definition py_str (v : pyval) : string :=
  match v with
  | PyNone => "None"
  | PyBool true => "True"
  | PyBool false => "False"
  | PyInt z => str_int z
  | PyStr s => s
  | PyMode m => ("Mode." ++ Mode.name m)%string
  | PyLED l => ("LED." ++ LED.name l)%string
  end.

(** [a == b] *)
Definition py_eq (a b : pyval) : bool :=
  match a, b with
  | PyNone, PyNone => true
  | PyBool x, PyBool y => Bool.eqb x y
  | PyInt x, PyInt y => x =? y
  | PyBool x, PyInt y | PyInt y, PyBool x => (if x then 1 else 0) =? y
  | PyStr x, PyStr y => String.eqb x y
  | PyMode x, PyMode y => Mode.eqb x y
  | PyLED x, PyLED y => LED.eqb x y
  | _, _ => false
  end.

Inductive pyexn :=
| ValueError (msg : string)
| OverflowError
| AttributeError (msg : string)
| TypeError (msg : string)
| IndexError (msg : string)
| IOError (errno : Z) (strerror : string)
| SystemError (msg : string)
| RuntimeError (msg : string)
| SessionError (msg : string) (errcode : option Z)
| DeviceError (msg : string) (errcode : option Z).

(** The numeric code an exception carries, if it carries one. *)
Definition code_of (e : pyexn) : option Z :=
  match e with
  | IOError errno _ => Some errno
  | SessionError _ c | DeviceError _ c => c
  | _ => None
  end.

Inductive result (A : Type) :=
| Return (a : A)
| Raise (e : pyexn).
Arguments Return {A} a.
Arguments Raise {A} e.

Definition result_map {A C} (f : A -> C) (r : result A) : result C :=
  match r with Return a => Return (f a) | Raise e => Raise e end.

(** ** Samples *)

(** [array[float, four]]: one sample as the library delivers it. *)
Definition sample4 : Type := float * float * float * float.

(** A sample as the binding returns it: [((x[0], x[1]), (x[2], x[3]))],
  channel A's pair and channel B's pair. *)
Definition pysample : Type := (float * float) * (float * float).

Definition to_pysample (x : sample4) : pysample :=
  let '(x0, x1, x2, x3) := x in ((x0, x1), (x2, x3)).

(** [x[i]] on a 2-tuple. *)
Definition tuple2_getitem {A} (x : A * A) (i : Z) : result A :=
  if (i =? 0) || (i =? -2) then Return (fst x)
  else if (i =? 1) || (i =? -1) then Return (snd x)
  else Raise (IndexError "tuple index out of range").

(** The slice of a sample that belongs to channel 0 (A) or 1 (B). *)
Definition channel_slice (c : Z) (x : pysample) : float * float :=
  if c =? 0 then fst x else snd x.

(** ** The C++ library, as the binding sees it *)

(** What a call into the library can do besides returning: raise.  The
    call as Cython compiles it first converts the arguments to the C types
    [cpp_libsmu.pxd] declares for the parameters, and raises when a value
    does not fit; then the C++ method runs, and an exception it throws
    comes back as a Python exception. *)
Inductive cpp_result (A : Type) :=
| CRet (a : A)
| CThrow (e : pyexn).
Arguments CRet {A} a.
Arguments CThrow {A} e.

(** The calls the binding makes into the library, with their arguments as
    the binding passes them. *)
Inductive cpp_call :=
| call_Session_configure (sample_rate : Z)
| call_Session_run (samples : Z)
| call_Session_start (samples : Z)
| call_Session_end
| call_Device_read (num_samples timeout : Z)
| call_Device_write (buf : list float) (channel : Z) (cyclic : bool)
| call_Device_get_mode (channel : Z)
| call_Device_set_mode (channel mode : Z)
| call_Device_ctrl_transfer
  (bmRequestType bRequest wValue wIndex : Z) (data : string)
  (wLength timeout : Z).

(** The state a Python call runs in: the library's state, the log of calls
    made into the library, and the indeterminate content a C local holds
    before its first assignment. *)
Record world (B : Type) := World {
  cpp : B;
  calls : list cpp_call;
  indeterminate : Z
}.
Arguments World {B}.
Arguments cpp {B}.
Arguments calls {B}.
Arguments indeterminate {B}.

(** ** The monad of Python code *)

Definition py (B A : Type) : Type := world B -> result A * world B.

Definition ret {B A} (a : A) : py B A := fun w => (Return a, w).

Definition raise {B A} (e : pyexn) : py B A := fun w => (Raise e, w).

Definition bind {B A C} (m : py B A) (k : A -> py B C) : py B C :=
  fun w =>
    match m w with
    | (Return a, w') => k a w'
    | (Raise e, w') => (Raise e, w')
    end.

Notation "x <- m ;; k" := (bind m (fun x => k))
  (at level 61, m at next level, right associativity).
Notation "m ;;; k" := (bind m (fun _ => k))
  (at level 61, right associativity).

Definition fmap {B A C} (f : A -> C) (m : py B A) : py B C :=
  fun w => let (r, w') := m w in (result_map f r, w').

Definition lift_result {B A} (r : result A) : py B A := fun w => (r, w).

(** [try: body / except ...: handler]: [handler e] is [None] when no except
    clause matches [e]. *)
Definition try_except {B A} (body : py B A) (handler : pyexn -> option (py B A))
  : py B A :=
  fun w =>
    match body w with
    | (Return a, w') => (Return a, w')
    | (Raise e, w') =>
        match handler e with
        | Some h => h w'
        | None => (Raise e, w')
        end
    end.

(** [for x in xs: body x] *)
Fixpoint for_each {B A} (xs : list A) (body : A -> py B unit) : py B unit :=
  match xs with
  | [] => ret tt
  | x :: xs' => body x ;;; for_each xs' body
  end.

(** [[f x for x in xs]] where [f] may raise. *)
Fixpoint list_comp {B A C} (f : A -> result C) (xs : list A) : py B (list C) :=
  match xs with
  | [] => ret []
  | x :: xs' =>
      y <- lift_result (f x) ;;
      ys <- list_comp f xs' ;;
      ret (y :: ys)
  end.

(** A call into the library: logged when it is evaluated, then run on the
    library's state. *)
Definition invoke {B A} (c : cpp_call) (f : B -> A * B) : py B A :=
  fun w =>
    let (a, b') := f (cpp w) in
    (Return a, World b' (calls w ++ [c]) (indeterminate w)).

(** The outcome of a library call that may throw, as Python sees it. *)
Definition of_cpp {B A} (r : cpp_result A) : py B A :=
  match r with
  | CRet a => ret a
  | CThrow e => raise e
  end.

(** The value of a C local read before it was assigned. *)
Definition uninitialised {B} : py B Z := fun w => (Return (indeterminate w), w).

(** Conversion of a Python integer to a C [int] parameter: a value outside
    the range of [int] raises OverflowError (its message, which depends on
    how far out of range the value is, is not modelled). *)
Definition INT_MIN : Z := - 2 ^ 31.
Definition INT_MAX : Z := 2 ^ 31 - 1.

Definition as_c_int {B} (v : Z) : py B Z :=
  if (INT_MIN <=? v) && (v <=? INT_MAX) then ret v
  else raise OverflowError.

(** [e.message] for an exception [e] raised with the message [msg]:
    exceptions have this attribute on Python 2 only. *)
Definition exception_message {B} (python : interpreter) (class_name : string)
    (msg : string) : py B string :=
  match python with
  | Python2 => ret msg
  | Python3 =>
      raise (AttributeError
               ("'" ++ class_name ++ "' object has no attribute 'message'"))
  end.

(** [data == '0'] for the bytes [data] that [str(...).encode()] gives: the
    literal is a byte string on Python 2 and a text string on Python 3,
    which no bytes object equals. *)
Definition equals_str_literal (python : interpreter) (data literal : string)
  : bool :=
  match python with
  | Python2 => String.eqb data literal
  | Python3 => false
  end.

(** The conversion of a Python float to a C [float]: the value rounded to
    the nearest number of the binary32 format. *)
Definition to_c_float (x : float) : float :=
  match Prim2SF x with
  | S754_finite s m e => SF2Prim (binary_round 24 128 s m e)
  | _ => x
  end.

(** [v.value] *)
Definition py_value {B} (v : pyval) : py B Z :=
  match v with
  | PyMode m => ret (Mode.value m)
  | PyLED l => ret (LED.value l)
  | _ => raise (AttributeError "object has no attribute 'value'")
  end.

(** [map(ord, s)] *)
Definition ords (s : string) : list Z :=
  map (fun c => Z.of_nat (nat_of_ascii c)) (list_ascii_of_string s).

(** ['\x00' * n] *)
Definition zero_bytes (n : Z) : string :=
  string_of_list_ascii (repeat Ascii.zero (Z.to_nat n)).

(** A call into the library other than those [cpp_call] lists: it runs on
    the library's state and leaves the log as it is. *)
Definition call_cpp {B A} (f : B -> A * B) : py B A :=
  fun w =>
    let (a, b') := f (cpp w) in
    (Return a, World b' (calls w) (indeterminate w)).

(** ** Generators *)

(** What [next()] gives on the generator
    [while True: for x in read(): yield x]: the item it yields, with the
    items of the current batch still to come, or nothing yet when every
    batch read so far was empty. *)
Inductive drawn (A : Type) :=
| Yielded (x : A) (pending : list A)
| Polling.
Arguments Yielded {A} x pending.
Arguments Polling {A}.

Definition drawn_map {A C} (f : A -> C) (d : drawn A) : drawn C :=
  match d with
  | Yielded x pending => Yielded (f x) (map f pending)
  | Polling => Polling
  end.

(** [next()] on that generator, resumed with [pending] left of the current
    batch.  The loop reads a new batch whenever the current one is used up;
    [fuel] bounds the number of batches read. *)
Fixpoint generator_next {B A} (read_batch : py B (list A)) (fuel : nat)
    (pending : list A) : py B (drawn A) :=
  match pending with
  | x :: rest => ret (Yielded x rest)
  | [] =>
      match fuel with
      | O => ret Polling
      | S fuel' =>
          xs <- read_batch ;;
          generator_next read_batch fuel' xs
      end
  end.

(** A consumer that draws [k] items with [next()]: the items drawn and what
    is left of the current batch. *)
Fixpoint generator_take {B A} (read_batch : py B (list A)) (fuel k : nat)
    (pending : list A) : py B (list A * list A) :=
  match k with
  | O => ret ([], pending)
  | S k' =>
      d <- generator_next read_batch fuel pending ;;
      match d with
      | Yielded x rest =>
          r <- generator_take read_batch fuel k' rest ;;
          ret (x :: fst r, snd r)
      | Polling => ret ([], [])
      end
  end.

(** ** [cdef class Session] *)

Module Session.
Section Binding.
Context {B : Type}.

(** [smu::Session]'s methods, each returning its [int] error code. *)
Variable smu_configure : Z -> B -> Z * B.
Variable smu_run : Z -> B -> Z * B.
Variable smu_start : Z -> B -> Z * B.
Variable smu_end : B -> Z * B.

(** [def configure(self, int sample_rate=0)] *)
Definition configure (sample_rate : Z) : py B unit :=
  sample_rate <- as_c_int sample_rate ;;
  if sample_rate <? 0 then
    raise (ValueError ("invalid sample rate: " ++ str_int sample_rate))
  else
    errcode <- invoke (call_Session_configure sample_rate)
                      (smu_configure sample_rate) ;;
    if negb (errcode =? 0) then
      raise (SessionError "failed configuring device" (Some errcode))
    else ret tt.

(** [def run(self, int samples)] *)
Definition run (samples : Z) : py B unit :=
  samples <- as_c_int samples ;;
  if samples <? 0 then
    raise (ValueError ("invalid number of samples: " ++ str_int samples))
  else
    errcode <- invoke (call_Session_run samples) (smu_run samples) ;;
    if negb (errcode =? 0) then
      raise (SessionError "failed running session stream" (Some errcode))
    else ret tt.

(** [def start(self, int samples)] *)
Definition start (samples : Z) : py B unit :=
  samples <- as_c_int samples ;;
  if samples <? 0 then
    raise (ValueError ("invalid number of samples: " ++ str_int samples))
  else
    errcode <- invoke (call_Session_start samples) (smu_start samples) ;;
    if negb (errcode =? 0) then
      raise (SessionError "failed starting session stream" (Some errcode))
    else ret tt.

(** [def end(self)] *)
Definition end_ : py B unit :=
  errcode <- invoke call_Session_end smu_end ;;
  if negb (errcode =? 0) then
    raise (SessionError "failed ending session stream" (Some errcode))
  else ret tt.

(** [def __dealloc__(self)]: the library's [end()] is called directly and
    its error code dropped; the [except SessionError] clause guards the
    call.  The call returns its [int] code and raises nothing, so the
    clause has nothing to catch. *)
Definition dealloc : py B unit :=
  try_except
    (invoke call_Session_end smu_end ;;; ret tt)
    (fun e => match e with
              | SessionError _ _ => Some (ret tt)
              | _ => None
              end).
(** A [cpp_libsmu.Device *], and the other methods of [smu::Session]. *)
Context {H : Type}.
Variable smu_scan : B -> Z * B.
Variable smu_add_all : B -> Z * B.
Variable smu_add : H -> B -> Z * B.
Variable smu_remove : H -> bool -> B -> Z * B.
Variable smu_destroy : H -> B -> Z * B.
Variable smu_cancel : B -> Z * B.
Variable smu_wait_for_completion : B -> B.
(** [smu::Session::flash_firmware(file, device)], with whatever it returns. *)
Context {R : Type}.
Variable smu_flash_firmware : string -> option H -> B -> cpp_result R * B.

(** [def scan(self)] *)
Definition scan : py B unit :=
  errcode <- call_cpp smu_scan ;;
  if negb (errcode =? 0) then
    raise (SessionError "failed scanning for supported devices" (Some errcode))
  else ret tt.

(** [def add_all(self)] *)
Definition add_all : py B unit :=
  errcode <- call_cpp smu_add_all ;;
  if negb (errcode =? 0) then
    raise (SessionError "failed scanning and/or adding all supported devices"
             (Some errcode))
  else ret tt.

(** [def __init__(self, add_all=True)] *)
Definition init (with_all : bool) : py B unit :=
  if with_all then add_all else ret tt.

(** [def add(self, Device dev)] *)
Definition add (dev : H) : py B unit :=
  errcode <- call_cpp (smu_add dev) ;;
  if negb (errcode =? 0) then
    raise (SessionError "failed adding device" (Some errcode))
  else ret tt.

(** [def remove(self, Device dev, detached=False)] *)
Definition remove (dev : H) (detached : bool) : py B unit :=
  errcode <- call_cpp (smu_remove dev detached) ;;
  if negb (errcode =? 0) then
    raise (SessionError "failed removing device" (Some errcode))
  else ret tt.

(** [def destroy(self, Device dev)] *)
Definition destroy (dev : H) : py B unit :=
  errcode <- call_cpp (smu_destroy dev) ;;
  if negb (errcode =? 0) then
    raise (SessionError "failed destroying device" (Some errcode))
  else ret tt.

(** [def cancel(self)] *)
Definition cancel : py B unit :=
  errcode <- call_cpp smu_cancel ;;
  if negb (errcode =? 0) then
    raise (SessionError "failed canceling device transfers" (Some errcode))
  else ret tt.

(** [def wait_for_completion(self)] *)
Definition wait_for_completion : py B unit :=
  call_cpp (fun b => (tt, smu_wait_for_completion b)).

(** [def flash_firmware(self, file, Device dev=None)]: [dev] is [None] or a
    device, whose pointer is passed on. *)
Definition flash_firmware (file : string) (dev : option H) : py B R :=
  let device := match dev with None => None | Some d => Some d end in
  try_except
    (r <- call_cpp (smu_flash_firmware file device) ;; of_cpp r)
    (fun e => match e with
              | RuntimeError msg => Some (raise (SessionError msg None))
              | _ => None
              end).
End Binding.
End Session.

(** ** [cdef class Device] *)

Module Device.
Section Binding.
Context {B : Type}.
Variable python : interpreter.

(** [self._device.read(buf, num_samples, timeout)]: the count the call
    returns or the exception it raises, and the content of [buf] after the
    call. *)
Variable smu_read : Z -> Z -> B -> (cpp_result Z * list sample4) * B.
(** [smu::Device::write(buf, channel, cyclic)] *)
Variable smu_write : list float -> Z -> bool -> B -> cpp_result Z * B.
(** [smu::Device::ctrl_transfer(...)]: the status it returns and the
    content of the [data] buffer after the call. *)
Variable smu_ctrl_transfer :
  Z -> Z -> Z -> Z -> string -> Z -> Z -> B -> (Z * string) * B.

(** [def write(self, data, channel, cyclic=False)]: [errcode] is declared
    without an initial value, and [buf] is [data] converted to a vector of
    C floats. *)
Definition write (data : list float) (channel : Z) (cyclic : bool)
  : py B unit :=
  errcode0 <- uninitialised ;;
  let buf := map to_c_float data in
  thrown <- invoke (call_Device_write buf channel cyclic)
                   (smu_write buf channel cyclic) ;;
  errcode <- try_except (of_cpp thrown)
               (fun e => match e with
                         | SystemError msg =>
                             Some (raise (DeviceError msg None))
                         | RuntimeError msg =>
                             Some (message <- exception_message python
                                                "RuntimeError" msg ;;
                                   if negb (prefix "dropped " message)
                                   then raise e
                                   else ret errcode0)
                         | _ => None
                         end) ;;
  if errcode <? 0 then
    raise (DeviceError "failed writing to device" (Some errcode))
  else ret tt.

(** [def read(self, num_samples, timeout=0)]: [ret] starts at 0. *)
Definition read (num_samples timeout : Z) : py B (list pysample) :=
  let ret0 := 0 in
  r <- invoke (call_Device_read num_samples timeout)
              (smu_read num_samples timeout) ;;
  let (thrown, buf) := r : cpp_result Z * list sample4 in
  ret_ <- try_except (of_cpp thrown)
            (fun e => match e with
                      | SystemError msg => Some (raise (DeviceError msg None))
                      | RuntimeError msg =>
                          Some (message <- exception_message python
                                             "RuntimeError" msg ;;
                                if negb (prefix "dropped " message)
                                then raise e
                                else ret ret0)
                      | _ => None
                      end) ;;
  if ret_ <? 0 then
    raise (DeviceError "failed reading from device" (Some ret_))
  else ret (map to_pysample buf).

(** [def get_samples(self, num_samples)] *)
Definition get_samples (num_samples : Z) : py B (list pysample) :=
  read num_samples (-1).

(** What [ctrl_transfer] returns: the status of an OUT transfer, or
    [map(ord, data)] for the buffer of an IN transfer.  On Python 2 that is
    the list of the bytes' numbers.  On Python 3 it is a lazy map over a
    bytes object, not yet evaluated. *)
Inductive transferred :=
| Count (r : Z)
| Payload (bytes : list Z)
| LazyMap (data : string).

(** [map(ord, data)] *)
Definition map_ord (data : string) : transferred :=
  match python with
  | Python2 => Payload (ords data)
  | Python3 => LazyMap data
  end.

(** [def ctrl_transfer(self, bm_request_type, b_request, wValue, wIndex,
                        data, wLength, timeout)] *)
Definition ctrl_transfer (bm_request_type b_request wValue wIndex : Z)
    (data : pyval) (wLength timeout : Z) : py B transferred :=
  let data := py_str data in
  let '(data, wLength) :=
    if Z.land bm_request_type 0x80 =? 0x80 then
      (if equals_str_literal python data "0" then zero_bytes wLength
       else data, wLength)
    else (data, 0) in
  r <- invoke (call_Device_ctrl_transfer bm_request_type b_request wValue
                 wIndex data wLength timeout)
              (smu_ctrl_transfer bm_request_type b_request wValue wIndex
                 data wLength timeout) ;;
  let (r, data) := r : Z * string in
  if r <? 0 then raise (IOError (Z.abs r) "USB control transfer failed")
  else if Z.land bm_request_type 0x80 =? 0x80 then ret (map_ord data)
  else ret (Count r).

(** [def set_led(self, led, status)] *)
Definition set_led (led : pyval) (status : bool) : py B unit :=
  if negb (in_LED led) then
    raise (ValueError ("invalid LED: " ++ py_str led))
  else
    let req := if status then 0x50 else 0x51 in
    if py_eq led (PyLED LED.all) then
      for_each (filter (fun l => negb (LED.eqb l LED.all))
                  (LED.members python))
        (fun x =>
           ctrl_transfer 0x40 req (LED.value x) 0 (PyInt 0) 0 100 ;;; ret tt)
    else
      v <- py_value led ;;
      ctrl_transfer 0x40 req v 0 (PyInt 0) 0 100 ;;; ret tt.
(** [smu::Device::samba_mode()], [smu::Device::write_calibration(path)]
    ([None] for the NULL path). *)
Variable smu_samba_mode : B -> Z * B.
Variable smu_write_calibration : option string -> B -> Z * B.

(** [property samples]: [next()] on the generator
    [while True: for x in self.read(1000): yield x]. *)
Definition samples_next (fuel : nat) (pending : list pysample)
  : py B (drawn pysample) :=
  generator_next (read 1000 0) fuel pending.

(** [def write_calibration(self, file)]: [file] is [None] or a path. *)
Definition write_calibration (file : option string) : py B unit :=
  let cal_path := match file with None => None | Some f => Some f end in
  r <- call_cpp (smu_write_calibration cal_path) ;;
  if r <? 0 then
    raise (DeviceError "failed writing device calibration data" None)
  else ret tt.

(** [def samba_mode(self)] *)
Definition samba_mode : py B unit :=
  errcode <- call_cpp smu_samba_mode ;;
  if negb (errcode =? 0) then
    raise (DeviceError "failed to enable SAM-BA mode" (Some errcode))
  else ret tt.
End Binding.
End Device.

(** ** [cdef class Channel] *)

Module Channel.
Section Binding.
Context {B : Type}.
Variable python : interpreter.
Variable smu_read : Z -> Z -> B -> (cpp_result Z * list sample4) * B.
Variable smu_write : list float -> Z -> bool -> B -> cpp_result Z * B.
(** [smu::Device::get_mode(channel)], [smu::Device::set_mode(channel, mode)] *)
Variable smu_get_mode : Z -> B -> Z * B.
Variable smu_set_mode : Z -> Z -> B -> Z * B.

(** The channel index bound by [__init__(self, Device device, int channel)]. *)
Variable chan : Z.

(** [property mode: def __get__(self)] *)
Definition mode_get : py B Mode.t :=
  mode <- invoke (call_Device_get_mode chan) (smu_get_mode chan) ;;
  match Mode.of_value mode with
  | Some m => ret m
  | None => raise (ValueError (str_int mode ++ " is not a valid Mode"))
  end.

(** [property mode: def __set__(self, mode)] *)
Definition mode_set (mode : pyval) : py B unit :=
  if negb (in_Mode mode) then
    raise (ValueError ("invalid mode: " ++ py_str mode))
  else
    v <- py_value mode ;;
    errcode <- invoke (call_Device_set_mode chan v) (smu_set_mode chan v) ;;
    if negb (errcode =? 0) then
      raise (DeviceError ("failed setting mode " ++ py_str mode ++ ": ")
               (Some errcode))
    else ret tt.

(** [def read(self, num_samples, timeout=0)] *)
Definition read (num_samples timeout : Z) : py B (list (float * float)) :=
  xs <- Device.read python smu_read num_samples timeout ;;
  list_comp (fun x => tuple2_getitem x chan) xs.

(** [def write(self, data, cyclic=False)] *)
Definition write (data : list float) (cyclic : bool) : py B unit :=
  Device.write python smu_write data chan cyclic.

(** [def get_samples(self, num_samples)] *)
Definition get_samples (num_samples : Z) : py B (list (float * float)) :=
  xs <- Device.get_samples python smu_read num_samples ;;
  list_comp (fun x => tuple2_getitem x chan) xs.
(** [property samples]: [next()] on the generator
    [while True: for x in self.read(1000): yield x]. *)
Definition samples_next (fuel : nat) (pending : list (float * float))
  : py B (drawn (float * float)) :=
  generator_next (read 1000 0) fuel pending.

(** [def arbitrary(self, waveform, repeat=False)] *)
Definition arbitrary (waveform : list float) (repeat : bool) : py B unit :=
  write waveform repeat.

(** [def constant(self, value)] *)
Definition constant (value : float) : py B unit :=
  let data := List.repeat value 1000 in
  write data true.
End Binding.
End Channel.

(** [Device.__init__]: [self.channels], the ordered dictionary of the
    device's channels, each given by the index it is bound to. *)
Definition Device_channels : list (string * Z) := [("A", 0); ("B", 1)].

(** ** The device behind the binding, as the specification describes it *)

Module SpecDevice.

(** Modelled from the spec: the states of the session state machine
    (section 4.1); [smu::Session] is not part of the binding. *)
Inductive run_state := IDLE | CONFIGURED | RUNNING | COMPLETED | CANCELLED.

(** Modelled from the spec: the error kinds of section 7 that the device
    operations below report; [smu::Device] is not part of the binding. *)
Inductive error := InvalidState | InvalidArgument | DeviceIOError.

(** Modelled from the spec: the state of [smu::Device] (section 3): the
    run state of its session, the current mode of each channel, the sample
    rate, the input queue (oldest sample first), the samples the transfer
    loop has yet to deliver, after how many of them the session is
    cancelled or ended ([None]: it is not), the number of samples dropped
    since the previous read, and whether the transport has failed. *)
Record t := Dev {
  state : run_state;
  modes : Z * Z;
  sample_rate : Z;
  in_queue : list sample4;
  incoming : nat -> sample4;
  ends_after : option nat;
  dropped : nat;
  transport_failed : bool
}.

(** Modelled from the spec: how many more samples can reach the input
    queue before the session is cancelled or ended; none when it is not
    running. *)
Definition until_end (d : t) : option nat :=
  match state d with
  | RUNNING => ends_after d
  | _ => Some 0%nat
  end.


Section Codes.
(** The [int] status by which the library reports each error kind. *)
Variable status : error -> Z.
(** Whether a number of samples and a timeout fit the C types the library
    declares for the parameters of [read]. *)
Variable fits : Z -> Z -> bool.

(** Modelled from the spec: [smu::Device::get_mode] (section 4.2), the
    current mode of a channel. *)
Definition get_mode (channel : Z) (d : t) : Z * t :=
  if channel =? 0 then (fst (modes d), d)
  else if channel =? 1 then (snd (modes d), d)
  else (status InvalidArgument, d).

(** Modelled from the spec: [smu::Device::set_mode] (section 4.2): the
    mode is validated against the Mode enum, the call fails with
    InvalidState while the session is RUNNING, and otherwise the channel
    takes the mode. *)
Definition set_mode (channel mode : Z) (d : t) : Z * t :=
  if negb (existsb (fun m => Mode.value m =? mode) Mode.members)
     || negb ((channel =? 0) || (channel =? 1))
  then (status InvalidArgument, d)
  else
    match state d with
    | RUNNING => (status InvalidState, d)
    | _ =>
        (0, Dev (state d)
              (if channel =? 0 then (mode, snd (modes d))
               else (fst (modes d), mode))
              (sample_rate d) (in_queue d) (incoming d) (ends_after d)
              (dropped d) (transport_failed d))
    end.

(** Modelled from the spec: [smu::Device::read] (section 4.2).  It drains
    up to [num_samples] samples from the input queue in acquisition order.
    With timeout 0 it takes what is there; with timeout -1 it waits until
    [num_samples] are available or the session is cancelled or ended; with
    a positive timeout it waits that many milliseconds at most.  Samples
    dropped since the previous read are signalled by an exception whose
    message starts with "dropped "; a transport failure by a negative
    status.  Arguments that do not fit the parameters' C types never reach
    the device: their conversion raises OverflowError. *)
Definition read (num_samples timeout : Z) (d : t)
  : (cpp_result Z * list sample4) * t :=
  if negb (fits num_samples timeout) then ((CThrow OverflowError, []), d)
  else if transport_failed d then ((CRet (status DeviceIOError), []), d)
  else
    let n := Z.to_nat num_samples in
    let missing := (n - List.length (in_queue d))%nat in
    let to_come :=
      match until_end d with
      | Some k => Nat.min missing k
      | None => missing
      end in
    let waited :=
      if timeout =? -1 then to_come
      else if timeout <=? 0 then 0%nat
      else Nat.min to_come (Z.to_nat (timeout * sample_rate d / 1000)) in
    let buf := firstn n (in_queue d) ++ map (incoming d) (seq 0 waited) in
    let d' :=
      Dev (state d) (modes d) (sample_rate d)
        (skipn n (in_queue d))
        (fun i => incoming d (waited + i)%nat)
        (option_map (fun k => (k - waited)%nat) (ends_after d))
        0%nat false in
    if (dropped d =? 0)%nat then
      ((CRet (Z.of_nat (List.length buf)), buf), d')
    else
      ((CThrow (RuntimeError
                  ("dropped " ++ str_int (Z.of_nat (dropped d)) ++ " samples")),
        buf), d').
End Codes.
End SpecDevice.

(** ** A scripted library *)

(** A stand-in for the C++ library whose state is the script of what its
    methods answer: the status they return, the exception they throw
    instead (if any), the samples a read puts into the buffer, and the bytes
    a device-to-host control transfer puts into the data buffer. *)
Module Scripted.
Record t := Script {
  status : Z;
  throws : option pyexn;
  samples : list sample4;
  reply : string
}.

Definition answer (s : t) : cpp_result Z :=
  match throws s with
  | Some e => CThrow e
  | None => CRet (status s)
  end.

Definition configure (sample_rate : Z) (s : t) : Z * t := (status s, s).
Definition run (n : Z) (s : t) : Z * t := (status s, s).
Definition start (n : Z) (s : t) : Z * t := (status s, s).
Definition end_ (s : t) : Z * t := (status s, s).

Definition read (num_samples timeout : Z) (s : t)
  : (cpp_result Z * list sample4) * t :=
  ((answer s, samples s), s).

Definition write (buf : list float) (channel : Z) (cyclic : bool) (s : t)
  : cpp_result Z * t :=
  (answer s, s).

Definition get_mode (channel : Z) (s : t) : Z * t := (status s, s).
Definition set_mode (channel mode : Z) (s : t) : Z * t := (status s, s).

Definition ctrl_transfer (bmRequestType bRequest wValue wIndex : Z)
    (data : string) (wLength timeout : Z) (s : t) : (Z * string) * t :=
  ((status s, if Z.testbit bmRequestType 7 then reply s else data), s).

(** A world around a script: no call made yet. *)
Definition fresh (s : t) (garbage : Z) : world t := World s [] garbage.
End Scripted.

(** ** Vocabulary of the statements *)

(** A control transfer is device-to-host (IN) when bit 0x80 of its request
  type is set, host-to-device (OUT) when it is clear. *)
Definition is_IN (bm_request_type : Z) : bool := Z.testbit bm_request_type 7.

(** The data buffer and the length field of the setup packet that reach the
    library for a given call of [ctrl_transfer]. *)
Definition request_data (python : interpreter) (bm_request_type : Z)
    (data : pyval) (wLength : Z) : string :=
  if is_IN bm_request_type then
    if equals_str_literal python (py_str data) "0" then zero_bytes wLength
    else py_str data
  else py_str data.

(** [list(m)] for what [ctrl_transfer] returned from an IN transfer: a lazy
    map over bytes applies [ord] to the integers the bytes object yields,
    which raises TypeError at the first of them. *)
Definition consume (m : Device.transferred) : result (list Z) :=
  match m with
  | Device.Count r => Raise (TypeError "'int' object is not iterable")
  | Device.Payload bytes => Return bytes
  | Device.LazyMap data =>
      match data with
      | EmptyString => Return []
      | String _ _ =>
          Raise (TypeError "ord() expected string of length 1, but int found")
      end
  end.

(** The individual LEDs, in the order in which [set_led] goes through them
    for [LED.all]. *)
Definition individual_leds (python : interpreter) : list LED.t :=
  filter (fun l => negb (LED.eqb l LED.all)) (LED.members python).

Definition request_length (bm_request_type wLength : Z) : Z :=
  if is_IN bm_request_type then wLength else 0.

(** The control transfer that switches one LED on or off. *)
Definition led_transfer (status : bool) (l : LED.t) : cpp_call :=
  call_Device_ctrl_transfer 0x40 (if status then 0x50 else 0x51) (LED.value l)
    0 "0" 0 100.

(** Worlds and status codes the examples run in. *)
Definition healthy : world Scripted.t :=
  Scripted.fresh (Scripted.Script 0 None [] "") 0.

Definition failing (code : Z) : world Scripted.t :=
  Scripted.fresh (Scripted.Script code None [] "") 0.

Definition one_sample : sample4 := (1, 2, 3, 4)%float.

Definition overflowed (garbage : Z) : world Scripted.t :=
  Scripted.fresh
    (Scripted.Script 0 (Some (RuntimeError "dropped 5 samples")) [one_sample]
        "")
    garbage.

(** A device that answers an IN transfer with two bytes. *)
Definition answering : world Scripted.t :=
  Scripted.fresh (Scripted.Script 2 None [] ("ab" ++ zero_bytes 2)) 0.

Definition delivered : world Scripted.t :=
  Scripted.fresh (Scripted.Script 1 None [one_sample] "") 0.


Definition errno_of (e : SpecDevice.error) : Z :=
  match e with
  | SpecDevice.InvalidState => -16
  | SpecDevice.InvalidArgument => -22
  | SpecDevice.DeviceIOError => -5
  end.

Definition spec_world (st : SpecDevice.run_state) (queue : list sample4)
    (ends : option nat) (lost : nat) (failed : bool) : world SpecDevice.t :=
  World (SpecDevice.Dev st (0, 0) 100000 queue (fun _ => one_sample) ends lost
           failed) [] 0.

(** The four values of a sample of the binding, flat again. *)
Definition of_pysample (x : pysample) : sample4 :=
  let '((a, b), (c, d)) := x in (a, b, c, d).

(** A method of the binding reports the status of a library call: it runs
    the call once, returns normally when the status is 0 and otherwise
    raises an exception of the class [exn] that carries the status as it
    is. *)
Definition reports_status {B} (exn : string -> option Z -> pyexn)
    (f : B -> Z * B) (m : py B unit) : Prop :=
  forall w : world B,
    snd (m w) = World (snd (f (cpp w))) (calls w) (indeterminate w)
    /\ (fst (f (cpp w)) = 0 -> fst (m w) = Return tt)
    /\ (fst (f (cpp w)) <> 0 ->
        exists msg, fst (m w) = Raise (exn msg (Some (fst (f (cpp w)))))).

(** The library signalled dropped samples: it threw a RuntimeError whose
    message starts with "dropped ". *)
Definition is_overflow {A} (r : cpp_result A) : bool :=
  match r with
  | CThrow (RuntimeError msg) => prefix "dropped " msg
  | _ => false
  end.

(** A library whose device has no sample to deliver. *)
Definition no_samples (num_samples timeout : Z) (b : unit)
  : (cpp_result Z * list sample4) * unit :=
  ((CRet 0, []), b).


(** * Properties *)

(** ** Auxiliary facts *)

Lemma land_0x80 (a : Z) : (Z.land a 0x80 =? 0x80) = Z.testbit a 7.
Proof.
  destruct (Z.testbit a 7) eqn:E.
  - apply Z.eqb_eq. apply Z.bits_inj'. intros n Hn.
    rewrite Z.land_spec. change 0x80 with (2 ^ 7).
    rewrite Z.pow2_bits_eqb by lia.
    destruct (Z.eqb_spec 7 n) as [<-|_].
    + now rewrite E.
    + apply andb_false_r.
  - apply Z.eqb_neq. intro H.
    assert (T : Z.testbit (Z.land a 0x80) 7 = true) by now rewrite H.
    rewrite Z.land_spec, E in T. discriminate.
Qed.


Lemma tuple2_getitem_slice (c : Z) (x : pysample) :
  c = 0 \/ c = 1 -> tuple2_getitem x c = Return (channel_slice c x).
Proof. now intros [-> | ->]. Qed.

Lemma list_comp_slice {B} (c : Z) (xs : list pysample) (w : world B) :
  c = 0 \/ c = 1 ->
  list_comp (fun x => tuple2_getitem x c) xs w
  = (Return (map (channel_slice c) xs), w).
Proof.
  intros Hc. induction xs as [|x xs IH]; simpl.
  - reflexivity.
  - unfold bind, lift_result. rewrite (tuple2_getitem_slice c x Hc).
    now rewrite IH.
Qed.

(** Running a computation and then a list comprehension over the channel
    index is mapping the channel's slice over its result. *)
Lemma bind_list_comp_slice {B} (c : Z) (m : py B (list pysample)) (w : world B)
    :
  c = 0 \/ c = 1 ->
  (xs <- m ;; list_comp (fun x => tuple2_getitem x c) xs) w
  = fmap (map (channel_slice c)) m w.
Proof.
  intros Hc. unfold bind, fmap.
  destruct (m w) as [[xs|e] w']; simpl.
  - now apply list_comp_slice.
  - reflexivity.
Qed.

(** ** What the binding does with each answer of the library *)

(** Case analyses on what the library answered end in goals that are
    closed by splitting, inverting equations between constructors and
    arithmetic. *)
Ltac settle :=
  repeat match goal with
         | |- _ /\ _ => split
         | |- _ <-> _ => split
         | |- forall _, _ => intro
         | H : _ /\ _ |- _ => destruct H
         | H : exists _, _ |- _ => destruct H
         | H : Return _ = Return _ |- _ => injection H as H
         | H : Raise _ = Raise _ |- _ => injection H as H
         | H : CRet _ = CRet _ |- _ => injection H as H
         | H : CThrow _ = CThrow _ |- _ => injection H as H
         end;
  subst; try discriminate; try lia; try reflexivity; try assumption;
  try (left; eauto; fail); try (right; reflexivity); eauto.

Section Runs.
Context {B : Type}.
Variable python : interpreter.
Variable smu_read : Z -> Z -> B -> (cpp_result Z * list sample4) * B.
Variable smu_write : list float -> Z -> bool -> B -> cpp_result Z * B.

(** What [Device.read] gives for each outcome of the library's read. *)
Lemma read_run (n t : Z) (w : world B) :
  fst (Device.read python smu_read n t w)
  = let buf := snd (fst (smu_read n t (cpp w))) in
    match fst (fst (smu_read n t (cpp w))) with
    | CRet r =>
        if r <? 0 then
          Raise (DeviceError "failed reading from device" (Some r))
        else Return (map to_pysample buf)
    | CThrow (SystemError msg) => Raise (DeviceError msg None)
    | CThrow (RuntimeError msg) =>
        match python with
        | Python2 =>
            if prefix "dropped " msg then Return (map to_pysample buf)
            else Raise (RuntimeError msg)
        | Python3 =>
            Raise (AttributeError
                     "'RuntimeError' object has no attribute 'message'")
        end
    | CThrow e => Raise e
    end.
Proof.
  unfold Device.read, bind, invoke, try_except.
  destruct (smu_read n t (cpp w)) as [[[r|e] buf] b']; simpl.
  - now destruct (r <? 0).
  - destruct e; try reflexivity. destruct python; simpl; [|reflexivity].
    now destruct (prefix "dropped " msg).
Qed.

Lemma read_world (n t : Z) (w : world B) :
  snd (Device.read python smu_read n t w)
  = World (snd (smu_read n t (cpp w))) (calls w ++ [call_Device_read n t])
      (indeterminate w).
Proof.
  unfold Device.read, bind, invoke, try_except.
  destruct (smu_read n t (cpp w)) as [[[r|e] buf] b']; simpl.
  - now destruct (r <? 0).
  - destruct e; try reflexivity. destruct python; simpl; [|reflexivity].
    now destruct (prefix "dropped " msg).
Qed.

(** What [Device.write] gives for each outcome of the library's write. *)
Lemma write_run (data : list float) (c : Z) (cyclic : bool) (w : world B) :
  fst (Device.write python smu_write data c cyclic w)
  = match fst (smu_write (map to_c_float data) c cyclic (cpp w)) with
    | CRet r =>
        if r <? 0 then Raise (DeviceError "failed writing to device" (Some r))
        else Return tt
    | CThrow (SystemError msg) => Raise (DeviceError msg None)
    | CThrow (RuntimeError msg) =>
        match python with
        | Python2 =>
            if prefix "dropped " msg then
              if indeterminate w <? 0 then
                Raise (DeviceError "failed writing to device"
                         (Some (indeterminate w)))
              else Return tt
            else Raise (RuntimeError msg)
        | Python3 =>
            Raise (AttributeError
                     "'RuntimeError' object has no attribute 'message'")
        end
    | CThrow e => Raise e
    end.
Proof.
  unfold Device.write, bind, invoke, try_except, uninitialised. simpl.
  destruct (smu_write (map to_c_float data) c cyclic (cpp w)) as [[r|e] b'];
    simpl.
  - now destruct (r <? 0).
  - destruct e; try reflexivity. destruct python; simpl; [|reflexivity].
    destruct (prefix "dropped " msg); simpl; [|reflexivity].
    now destruct (indeterminate w <? 0).
Qed.

Lemma write_world (data : list float) (c : Z) (cyclic : bool) (w : world B) :
  snd (Device.write python smu_write data c cyclic w)
  = World (snd (smu_write (map to_c_float data) c cyclic (cpp w)))
      (calls w ++ [call_Device_write (map to_c_float data) c cyclic])
      (indeterminate w).
Proof.
  unfold Device.write, bind, invoke, try_except, uninitialised. simpl.
  destruct (smu_write (map to_c_float data) c cyclic (cpp w)) as [[r|e] b'];
    simpl.
  - now destruct (r <? 0).
  - destruct e; try reflexivity. destruct python; simpl; [|reflexivity].
    destruct (prefix "dropped " msg); simpl; [|reflexivity].
    now destruct (indeterminate w <? 0).
Qed.
End Runs.

(** Where a loop over a list stops, and what it has logged by then, when
    each round logs one call. *)
Lemma for_each_calls {B A} (c : A -> cpp_call) (body : A -> py B unit)
    (xs : list A) :
  (forall x w, calls (snd (body x w)) = calls w ++ [c x]) ->
  forall w,
  exists k,
    calls (snd (for_each xs body w)) = calls w ++ map c (firstn k xs)
    /\ (k <= List.length xs)%nat
    /\ (fst (for_each xs body w) = Return tt -> k = List.length xs).
Proof.
  intros Hbody. induction xs as [|x xs IH]; intros w.
  - exists 0%nat. cbn. rewrite app_nil_r. auto.
  - cbn [for_each]. unfold bind. specialize (Hbody x w).
    destruct (body x w) as [[[]|e] w1]; cbn [snd] in Hbody.
    + destruct (IH w1) as (k & Hk & Hle & Hall). exists (S k).
      cbn [firstn map List.length]. rewrite Hk, Hbody, <- app_assoc.
      repeat split; [lia | intros Hr; f_equal; auto].
    + exists 1%nat. cbn [firstn map snd fst List.length].
      rewrite Hbody. repeat split; [lia | discriminate].
Qed.

(** ** Channel: delegation to the device *)

Section ChannelDelegation.
Context {B : Type}.
Variable python : interpreter.
Variable smu_read : Z -> Z -> B -> (cpp_result Z * list sample4) * B.
Variable smu_write : list float -> Z -> bool -> B -> cpp_result Z * B.

(** C5.  For a channel index [c] of 0 or 1 and all arguments,
    [Channel.read(n, t)] is the projection on component [c] of each sample
    of the owning [Device.read(n, t)], [Channel.write(data, cyclic)] is
    [Device.write(data, c, cyclic)], and [Channel.get_samples(n)] is the
    same projection of [Device.get_samples(n)]: same result, same
    exception, same calls into the library. *)
Theorem channel_is_delegation (c n t : Z) (data : list float) (cyclic : bool)
    (w : world B) :
  c = 0 \/ c = 1 ->
  Channel.read python smu_read c n t w
  = fmap (map (channel_slice c)) (Device.read python smu_read n t) w
  /\ Channel.write python smu_write c data cyclic w
     = Device.write python smu_write data c cyclic w
  /\ Channel.get_samples python smu_read c n w
     = fmap (map (channel_slice c)) (Device.get_samples python smu_read n) w.
Proof.
  intros Hc. repeat split.
  - unfold Channel.read. now apply bind_list_comp_slice.
  - unfold Channel.get_samples. now apply bind_list_comp_slice.
Qed.

(** C9.  [Device.get_samples(n)] returns the same result, and raises in
    the same cases, as [Device.read(n, -1)]; [Channel.get_samples(n)] is the
    projection on the channel of [Device.get_samples(n)]. *)
Theorem get_samples_is_blocking_read (c n : Z) (w : world B) :
  c = 0 \/ c = 1 ->
  Device.get_samples python smu_read n w = Device.read python smu_read n (-1) w
  /\ Channel.get_samples python smu_read c n w
     = fmap (map (channel_slice c)) (Device.get_samples python smu_read n) w.
Proof.
  intros Hc. split.
  - reflexivity.
  - unfold Channel.get_samples. now apply bind_list_comp_slice.
Qed.
End ChannelDelegation.

Lemma channel_is_delegation_witness :
  (1 = 0 \/ 1 = 1)
  /\ fst (Channel.read Python3 Scripted.read 1 1 0 delivered)
      = Return [(3, 4)%float]
  /\ Channel.write Python3 Scripted.write 1 [1%float] true delivered
     = Device.write Python3 Scripted.write [1%float] 1 true delivered.
Proof.
  pose proof (channel_is_delegation Python3 Scripted.read Scripted.write 1 1 0
                [1%float] true delivered (or_intror eq_refl)) as (Hr & Hw & _).
  split; [now right | split].
  - rewrite Hr. reflexivity.
  - exact Hw.
Defined.

Lemma get_samples_is_blocking_read_witness :
  (0 = 0 \/ 0 = 1)
  /\ Device.get_samples Python3 Scripted.read 1 delivered
     = Device.read Python3 Scripted.read 1 (-1) delivered
  /\ fst (Channel.get_samples Python3 Scripted.read 0 1 delivered)
     = Return [(1, 2)%float].
Proof.
  pose proof (get_samples_is_blocking_read Python3 Scripted.read 0 1 delivered
                (or_introl eq_refl)) as (Hd & Hc).
  split; [now left | split].
  - exact Hd.
  - rewrite Hc. reflexivity.
Defined.

(** ** Session: ending a session *)

Section SessionEnd.
Context {B : Type}.
Variable smu_end : B -> Z * B.

(** C7.  Teardown ([__dealloc__]) runs the library's [end()], once, as an
    explicit [Session.end()] does, and never propagates an error: whatever
    code the library reports, it returns normally and the code is dropped.
    An explicit [Session.end()] raises a SessionError carrying the code
    whenever that code is not zero, and returns normally when it is
    zero. *)
Theorem end_swallowed_in_teardown_only (w : world B) (errcode : Z) (b' : B) :
  smu_end (cpp w) = (errcode, b') ->
  Session.dealloc smu_end w
  = (Return tt, World b' (calls w ++ [call_Session_end]) (indeterminate w))
  /\ snd (Session.end_ smu_end w)
     = World b' (calls w ++ [call_Session_end]) (indeterminate w)
  /\ (errcode <> 0 ->
      fst (Session.end_ smu_end w)
      = Raise (SessionError "failed ending session stream" (Some errcode)))
  /\ (errcode = 0 -> fst (Session.end_ smu_end w) = Return tt).
Proof.
  intros E.
  unfold Session.dealloc, Session.end_, try_except, bind, invoke.
  rewrite E. cbn [fst snd ret].
  split; [reflexivity|]. split; [now destruct (errcode =? 0)|]. split.
  - intros Hne. apply Z.eqb_neq in Hne. now rewrite Hne.
  - intros ->. reflexivity.
Qed.
End SessionEnd.

Lemma end_swallowed_in_teardown_only_witness :
  Session.dealloc Scripted.end_ (failing (-5))
  = (Return tt, World (cpp (failing (-5))) [call_Session_end] 0)
  /\ fst (Session.end_ Scripted.end_ (failing (-5)))
     = Raise (SessionError "failed ending session stream" (Some (-5))).
Proof.
  pose proof (end_swallowed_in_teardown_only Scripted.end_ (failing (-5)) (-5)
                (cpp (failing (-5))) eq_refl) as (Hd & _ & He & _).
  split; [exact Hd | apply He; discriminate].
Defined.

(** A loop over three items is its body run on each in turn, as long as no
    run raises. *)
Lemma for_each3 {B A} (a b c : A) (body : A -> py B unit) (w : world B) :
  for_each [a; b; c] body w = (body a ;;; body b ;;; body c) w.
Proof.
  simpl. unfold bind.
  destruct (body a w) as [[[]|e] w1]; [|reflexivity].
  destruct (body b w1) as [[[]|e] w2]; [|reflexivity].
  destruct (body c w2) as [[[]|e] w3]; reflexivity.
Qed.

(** ** Device: raw control transfers and LEDs *)

Section ControlTransfer.
Context {B : Type}.
Variable python : interpreter.
Variable smu_ctrl_transfer :
  Z -> Z -> Z -> Z -> string -> Z -> Z -> B -> (Z * string) * B.

(** One call of [ctrl_transfer] is one call into the library, with the
    buffer and length of [request_data] and [request_length]. *)
Lemma ctrl_transfer_run (bm req val idx : Z) (data : pyval)
    (wLength timeout : Z) (w : world B) :
  Device.ctrl_transfer python smu_ctrl_transfer bm req val idx data wLength
    timeout w
  = let '((r, data'), b') :=
      smu_ctrl_transfer bm req val idx (request_data python bm data wLength)
        (request_length bm wLength) timeout (cpp w) in
    (if r <? 0 then Raise (IOError (Z.abs r) "USB control transfer failed")
     else if is_IN bm then Return (Device.map_ord python data')
     else Return (Device.Count r),
     World b'
       (calls w ++ [call_Device_ctrl_transfer bm req val idx
                      (request_data python bm data wLength)
                      (request_length bm wLength) timeout])
       (indeterminate w)).
Proof.
  unfold Device.ctrl_transfer, request_data, request_length, is_IN.
  rewrite land_0x80.
  destruct (Z.testbit bm 7); unfold bind, invoke;
    match goal with
    | |- context [smu_ctrl_transfer ?a ?b ?c ?d ?e ?f ?g ?h] =>
        destruct (smu_ctrl_transfer a b c d e f g h) as [[r data'] b']
    end; simpl; destruct (r <? 0); reflexivity.
Qed.

(** C10.  When bit 0x80 of [bm_request_type] is clear (an OUT transfer) the
    [wLength] that reaches the library is 0 whatever the caller passed, and
    the caller's [wLength] has no influence on the call at all: result,
    library state and logged call are the same for any two values of it. *)
Theorem ctrl_transfer_out_wLength_zero (bm req val idx : Z) (data : pyval)
    (wLength timeout : Z) (w : world B) :
  Z.testbit bm 7 = false ->
  calls (snd (Device.ctrl_transfer python smu_ctrl_transfer bm req val idx data
                wLength timeout w))
  = calls w
    ++ [call_Device_ctrl_transfer bm req val idx (py_str data) 0 timeout]
  /\ forall wLength',
       Device.ctrl_transfer python smu_ctrl_transfer bm req val idx data
         wLength' timeout w
       = Device.ctrl_transfer python smu_ctrl_transfer bm req val idx data
           wLength timeout w.
Proof.
  intros Hout. split.
  - rewrite ctrl_transfer_run.
    unfold request_data, request_length, is_IN. rewrite Hout.
    destruct (smu_ctrl_transfer bm req val idx (py_str data) 0 timeout (cpp w))
      as [[r data'] b'].
    reflexivity.
  - intros wLength'. rewrite !ctrl_transfer_run.
    unfold request_data, request_length, is_IN. now rewrite Hout.
Qed.

(** C6, as amended.  When the library returns a negative status [r],
    [ctrl_transfer] raises an IOError that carries [abs(r)], the status
    without its sign.  When the status is not negative it returns that
    status for an OUT transfer (bit 0x80 clear) and, on Python 2, the bytes
    of the data buffer after the transfer for an IN transfer (bit 0x80
    set). *)
Theorem ctrl_transfer_outcome (bm req val idx : Z) (data : pyval)
    (wLength timeout : Z) (w : world B) (r : Z) (data' : string) (b' : B) :
  smu_ctrl_transfer bm req val idx (request_data python bm data wLength)
    (request_length bm wLength) timeout (cpp w) = ((r, data'), b') ->
  (r < 0 ->
   fst (Device.ctrl_transfer python smu_ctrl_transfer bm req val idx data
          wLength timeout w)
   = Raise (IOError (- r) "USB control transfer failed"))
  /\ (0 <= r -> is_IN bm = false ->
      fst (Device.ctrl_transfer python smu_ctrl_transfer bm req val idx data
             wLength timeout w)
      = Return (Device.Count r))
  /\ (0 <= r -> is_IN bm = true -> python = Python2 ->
      fst (Device.ctrl_transfer python smu_ctrl_transfer bm req val idx data
             wLength timeout w)
      = Return (Device.Payload (ords data'))).
Proof.
  intros E. rewrite ctrl_transfer_run, E. simpl. repeat split.
  - intros Hr. rewrite (proj2 (Z.ltb_lt r 0) Hr).
    now rewrite Z.abs_neq by lia.
  - intros Hr Hout. rewrite (proj2 (Z.ltb_ge r 0) Hr). now rewrite Hout.
  - intros Hr Hin ->. rewrite (proj2 (Z.ltb_ge r 0) Hr). now rewrite Hin.
Qed.

(** Switching one LED is one control transfer. *)
Lemma set_led_single (l : LED.t) (status : bool) (w : world B) :
  l <> LED.all ->
  Device.set_led python smu_ctrl_transfer (PyLED l) status w
  = (Device.ctrl_transfer python smu_ctrl_transfer 0x40
       (if status then 0x50 else 0x51) (LED.value l) 0 (PyInt 0) 0 100 ;;;
     ret tt) w.
Proof. intros Hl. destruct l; try reflexivity. now destruct Hl. Qed.

Lemma set_led_single_calls (l : LED.t) (status : bool) (w : world B) :
  l <> LED.all ->
  calls (snd (Device.set_led python smu_ctrl_transfer (PyLED l) status w))
  = calls w ++ [led_transfer status l].
Proof.
  intros Hl. rewrite (set_led_single l status w Hl).
  unfold bind. rewrite ctrl_transfer_run. simpl.
  destruct (smu_ctrl_transfer _ _ _ _ _ _ _ _) as [[r data'] b'].
  simpl. now destruct (r <? 0).
Qed.

(** The loop of [set_led] for [LED.all], with the transfer of each round
    written out. *)
Lemma set_led_all_loop (status : bool) :
  Device.set_led python smu_ctrl_transfer (PyLED LED.all) status
  = for_each (individual_leds python)
      (fun x =>
         Device.ctrl_transfer python smu_ctrl_transfer 0x40
           (if status then 0x50 else 0x51) (LED.value x) 0 (PyInt 0) 0 100 ;;;
         ret tt).
Proof. reflexivity. Qed.

Lemma individual_leds_single (l : LED.t) :
  In l (individual_leds python) -> l <> LED.all.
Proof.
  unfold individual_leds. rewrite filter_In. intros [_ Hl] ->. discriminate.
Qed.

Lemma individual_leds_permutation :
  Permutation (individual_leds python) [LED.red; LED.green; LED.blue].
Proof.
  destruct python; cbn.
  - apply Permutation_sym.
    apply Permutation_rev with (l := [LED.red; LED.green; LED.blue]).
  - apply Permutation_refl.
Qed.

Lemma led_round_calls (status : bool) (x : LED.t) (w : world B) :
  calls (snd ((Device.ctrl_transfer python smu_ctrl_transfer 0x40
                 (if status then 0x50 else 0x51) (LED.value x) 0 (PyInt 0) 0
                 100 ;;; ret tt) w))
  = calls w ++ [led_transfer status x].
Proof.
  unfold bind. rewrite ctrl_transfer_run. simpl.
  destruct (smu_ctrl_transfer _ _ _ _ _ _ _ _) as [[r data'] b'].
  simpl. now destruct (r <? 0).
Qed.

(** C8, as amended.  [set_led] is nothing but [ctrl_transfer] calls and
    keeps no state of its own.  For a single LED it issues exactly one
    control transfer, with request 0x50 (on) or 0x51 (off) and the LED's
    value.  For [LED.all] it goes through the individual LEDs red, green
    and blue, issuing such a transfer with the same request for one after
    the other until a transfer fails; it has issued exactly one transfer
    per individual LED whenever it completes. *)
Theorem set_led_is_ctrl_transfers (l : LED.t) (status : bool) (w : world B) :
  l <> LED.all ->
  Device.set_led python smu_ctrl_transfer (PyLED l) status w
  = (Device.ctrl_transfer python smu_ctrl_transfer 0x40
       (if status then 0x50 else 0x51) (LED.value l) 0 (PyInt 0) 0 100 ;;;
     ret tt) w
  /\ calls (snd (Device.set_led python smu_ctrl_transfer (PyLED l) status w))
     = calls w ++ [led_transfer status l]
  /\ Permutation (individual_leds python) [LED.red; LED.green; LED.blue]
  /\ Device.set_led python smu_ctrl_transfer (PyLED LED.all) status w
     = for_each (individual_leds python)
         (fun x =>
            Device.ctrl_transfer python smu_ctrl_transfer 0x40
              (if status then 0x50 else 0x51) (LED.value x) 0 (PyInt 0) 0 100
            ;;; ret tt) w
  /\ (exists k,
        calls (snd (Device.set_led python smu_ctrl_transfer (PyLED LED.all)
                      status w))
        = calls w ++ map (led_transfer status)
                       (firstn k (individual_leds python))
        /\ (k <= 3)%nat
        /\ (fst (Device.set_led python smu_ctrl_transfer (PyLED LED.all)
                   status w) = Return tt -> k = 3%nat))
  /\ (fst (Device.set_led python smu_ctrl_transfer (PyLED LED.all) status w)
      = Return tt ->
      calls (snd (Device.set_led python smu_ctrl_transfer (PyLED LED.all)
                    status w))
      = calls w ++ map (led_transfer status) (individual_leds python)).
Proof.
  intros Hl.
  split; [now apply set_led_single|].
  split; [now apply set_led_single_calls|].
  split; [apply individual_leds_permutation|].
  split; [now rewrite set_led_all_loop|].
  rewrite set_led_all_loop.
  destruct (for_each_calls (led_transfer status)
              (fun x =>
                 Device.ctrl_transfer python smu_ctrl_transfer 0x40
                   (if status then 0x50 else 0x51) (LED.value x) 0 (PyInt 0) 0
                   100 ;;; ret tt)
              (individual_leds python) (led_round_calls status) w)
    as (k & Hk & Hle & Hall).
  assert (Hlen : List.length (individual_leds python) = 3%nat)
    by now destruct python.
  rewrite Hlen in *. split.
  - exists k. auto.
  - intros Hr. rewrite Hk, (Hall Hr), <- Hlen. now rewrite firstn_all.
Qed.
End ControlTransfer.

Lemma ctrl_transfer_out_wLength_zero_witness :
  Z.testbit 0x40 7 = false
  /\ calls (snd (Device.ctrl_transfer Python3 Scripted.ctrl_transfer 0x40 1 2 3
                   (PyStr "abc") 64 100 healthy))
     = [call_Device_ctrl_transfer 0x40 1 2 3 "abc" 0 100].
Proof.
  split; [reflexivity|].
  exact (proj1 (ctrl_transfer_out_wLength_zero Python3 Scripted.ctrl_transfer
                  0x40 1 2 3 (PyStr "abc") 64 100 healthy eq_refl)).
Defined.

Lemma ctrl_transfer_outcome_witness :
  fst (Device.ctrl_transfer Python3 Scripted.ctrl_transfer 0x40 1 2 3 (PyInt 0)
         4 100 (failing (-5)))
  = Raise (IOError 5 "USB control transfer failed")
  /\ fst (Device.ctrl_transfer Python3 Scripted.ctrl_transfer 0x40 1 2 3
            (PyInt 0) 4 100 (failing 3))
     = Return (Device.Count 3)
  /\ fst (Device.ctrl_transfer Python2 Scripted.ctrl_transfer 0xC0 1 2 3
            (PyInt 0) 4 100 answering)
     = Return (Device.Payload [97; 98; 0; 0]).
Proof.
  split; [|split].
  - apply (ctrl_transfer_outcome Python3 Scripted.ctrl_transfer 0x40 1 2 3
             (PyInt 0) 4 100 (failing (-5)) (-5) "0" (cpp (failing (-5)))
             eq_refl).
    reflexivity.
  - apply (ctrl_transfer_outcome Python3 Scripted.ctrl_transfer 0x40 1 2 3
             (PyInt 0) 4 100 (failing 3) 3 "0" (cpp (failing 3)) eq_refl).
    + discriminate.
    + reflexivity.
  - apply (ctrl_transfer_outcome Python2 Scripted.ctrl_transfer 0xC0 1 2 3
             (PyInt 0) 4 100 answering 2 (Scripted.reply (cpp answering))
             (cpp answering) eq_refl).
    + discriminate.
    + reflexivity.
    + reflexivity.
Defined.

(** C6, as stated, fails: the transport returns -5 and the IOError raised
    carries 5, not the negative status; on either interpreter.  On Python 3,
    moreover, an IN transfer that succeeded hands back no payload: what it
    returns raises TypeError as soon as its items are asked for. *)
Lemma ctrl_transfer_error_drops_sign :
  fst (fst (Scripted.ctrl_transfer 0x40 1 2 3 "0" 0 100 (cpp (failing (-5)))))
  = -5
  /\ (forall python,
      exists e,
        fst (Device.ctrl_transfer python Scripted.ctrl_transfer 0x40 1 2 3
               (PyInt 0) 4 100 (failing (-5))) = Raise e
        /\ code_of e = Some 5
        /\ code_of e <> Some (-5))
  /\ exists m,
       fst (Device.ctrl_transfer Python3 Scripted.ctrl_transfer 0xC0 1 2 3
              (PyInt 0) 4 100 answering) = Return m
       /\ consume m
          = Raise (TypeError
                     "ord() expected string of length 1, but int found").
Proof.
  split; [reflexivity|]. split.
  - intros python. exists (IOError 5 "USB control transfer failed").
    destruct python; repeat split; discriminate.
  - eexists. split; reflexivity.
Qed.

Lemma set_led_is_ctrl_transfers_witness :
  LED.green <> LED.all
  /\ calls (snd (Device.set_led Python3 Scripted.ctrl_transfer (PyLED LED.green)
                   false healthy))
     = [call_Device_ctrl_transfer 0x40 0x51 29 0 "0" 0 100]
  /\ calls (snd (Device.set_led Python3 Scripted.ctrl_transfer (PyLED LED.all)
                   true healthy))
     = [call_Device_ctrl_transfer 0x40 0x50 47 0 "0" 0 100;
        call_Device_ctrl_transfer 0x40 0x50 29 0 "0" 0 100;
        call_Device_ctrl_transfer 0x40 0x50 28 0 "0" 0 100]
  /\ calls (snd (Device.set_led Python2 Scripted.ctrl_transfer (PyLED LED.all)
                   true healthy))
     = [call_Device_ctrl_transfer 0x40 0x50 28 0 "0" 0 100;
        call_Device_ctrl_transfer 0x40 0x50 29 0 "0" 0 100;
        call_Device_ctrl_transfer 0x40 0x50 47 0 "0" 0 100].
Proof.
  assert (Hg : LED.green <> LED.all) by discriminate.
  split; [exact Hg|]. split; [|split].
  - exact (proj1 (proj2 (set_led_is_ctrl_transfers Python3
                           Scripted.ctrl_transfer LED.green false healthy Hg))).
  - exact (proj2 (proj2 (proj2 (proj2 (proj2
             (set_led_is_ctrl_transfers Python3 Scripted.ctrl_transfer
                LED.green true healthy Hg))))) eq_refl).
  - exact (proj2 (proj2 (proj2 (proj2 (proj2
             (set_led_is_ctrl_transfers Python2 Scripted.ctrl_transfer
                LED.green true healthy Hg))))) eq_refl).
Defined.

(** C8, as stated, fails: when the first transfer fails,
    [set_led(LED.all, True)] raises after that one transfer and the other
    two LEDs get none; on either interpreter. *)
Lemma set_led_all_stops_at_failure :
  Device.set_led Python3 Scripted.ctrl_transfer (PyLED LED.all) true
    (failing (-1))
  = (Raise (IOError 1 "USB control transfer failed"),
     World (cpp (failing (-1))) [led_transfer true LED.red] 0)
  /\ Device.set_led Python2 Scripted.ctrl_transfer (PyLED LED.all) true
       (failing (-1))
     = (Raise (IOError 1 "USB control transfer failed"),
        World (cpp (failing (-1))) [led_transfer true LED.blue] 0).
Proof. split; reflexivity. Qed.

(** ** Validation of arguments *)

Section Validation.
Context {B : Type}.
Variable python : interpreter.
Variable smu_configure : Z -> B -> Z * B.
Variable smu_run : Z -> B -> Z * B.
Variable smu_start : Z -> B -> Z * B.
Variable smu_set_mode : Z -> Z -> B -> Z * B.
Variable smu_ctrl_transfer :
  Z -> Z -> Z -> Z -> string -> Z -> Z -> B -> (Z * string) * B.

Lemma as_c_int_in_range (v : Z) (w : world B) :
  INT_MIN <= v <= INT_MAX -> as_c_int v w = (Return v, w).
Proof.
  intros [Hlo Hhi]. unfold as_c_int.
  apply Z.leb_le in Hlo, Hhi. now rewrite Hlo, Hhi.
Qed.

Lemma as_c_int_below (v : Z) (w : world B) :
  v < INT_MIN ->
  as_c_int v w = (Raise OverflowError, w).
Proof.
  intros H. unfold as_c_int. apply Z.leb_gt in H. now rewrite H.
Qed.

(** C4, as amended.  An invalid argument is refused before any call into
    the library and with the state unchanged: a negative [sample_rate] to
    [Session.configure] or a negative [samples] to [Session.run] or
    [Session.start] raises ValueError when it fits a C [int] and
    OverflowError when it lies below the range of a C [int]; a value that is
    not a member of [Mode] assigned to [Channel.mode], and a value that is
    not a member of [LED] passed to [Device.set_led], raise ValueError. *)
Theorem invalid_arguments_refused_before_any_call (w : world B)
    (n below c : Z) (mode led : pyval) (status : bool) :
  INT_MIN <= n < 0 ->
  below < INT_MIN ->
  in_Mode mode = false ->
  in_LED led = false ->
  Session.configure smu_configure n w
  = (Raise (ValueError ("invalid sample rate: " ++ str_int n)), w)
  /\ Session.run smu_run n w
     = (Raise (ValueError ("invalid number of samples: " ++ str_int n)), w)
  /\ Session.start smu_start n w
     = (Raise (ValueError ("invalid number of samples: " ++ str_int n)), w)
  /\ Channel.mode_set smu_set_mode c mode w
     = (Raise (ValueError ("invalid mode: " ++ py_str mode)), w)
  /\ Device.set_led python smu_ctrl_transfer led status w
     = (Raise (ValueError ("invalid LED: " ++ py_str led)), w)
  /\ Session.configure smu_configure below w
     = (Raise OverflowError, w)
  /\ Session.run smu_run below w
     = (Raise OverflowError, w)
  /\ Session.start smu_start below w
     = (Raise OverflowError, w).
Proof.
  intros Hn Hbelow Hmode Hled.
  assert (Hin : as_c_int n w = (Return n, w)).
  { apply as_c_int_in_range. unfold INT_MAX, INT_MIN in *. lia. }
  assert (Hneg : (n <? 0) = true) by (apply Z.ltb_lt; lia).
  pose proof (as_c_int_below below w Hbelow) as Hout.
  unfold Session.configure, Session.run, Session.start, Channel.mode_set,
    Device.set_led, bind.
  rewrite Hin, Hout, Hneg, Hmode, Hled. simpl.
  repeat split.
Qed.
End Validation.

Lemma invalid_arguments_refused_before_any_call_witness :
  Session.configure Scripted.configure (-1) healthy
  = (Raise (ValueError "invalid sample rate: -1"), healthy)
  /\ Channel.mode_set Scripted.set_mode 0 (PyInt 1) healthy
     = (Raise (ValueError "invalid mode: 1"), healthy)
  /\ Device.set_led Python3 Scripted.ctrl_transfer (PyMode Mode.SVMI) true
      healthy
     = (Raise (ValueError "invalid LED: Mode.SVMI"), healthy)
  /\ Session.run Scripted.run (- 2 ^ 31 - 1) healthy
     = (Raise OverflowError, healthy).
Proof.
  assert (H1 : INT_MIN <= -1 < 0) by (unfold INT_MIN; lia).
  assert (H2 : - 2 ^ 31 - 1 < INT_MIN) by (unfold INT_MIN; lia).
  pose proof (invalid_arguments_refused_before_any_call Python3
      Scripted.configure
                Scripted.run Scripted.start Scripted.set_mode
                Scripted.ctrl_transfer healthy (-1) (- 2 ^ 31 - 1) 0 (PyInt 1)
                (PyMode Mode.SVMI) true H1 H2 eq_refl eq_refl)
    as (Hc & _ & _ & Hm & Hl & _ & Hr & _).
  repeat split; assumption.
Defined.

(** C4, as stated, fails: a negative sample rate below the range of a C
    [int] never reaches the check of its sign; the conversion of the
    argument raises OverflowError, not ValueError. *)
Lemma configure_below_int_range_overflows :
  - 2 ^ 31 - 1 < 0
  /\ Session.configure Scripted.configure (- 2 ^ 31 - 1) healthy
     = (Raise OverflowError, healthy)
  /\ forall msg,
       fst (Session.configure Scripted.configure (- 2 ^ 31 - 1) healthy)
       <> Raise (ValueError msg).
Proof.
  split; [reflexivity|]. split; [reflexivity|].
  intros msg. discriminate.
Qed.

(** ** Dropped samples *)

Section Overflow.
Context {B : Type}.
Variable smu_read : Z -> Z -> B -> (cpp_result Z * list sample4) * B.
Variable smu_write : list float -> Z -> bool -> B -> cpp_result Z * B.

(** C2, as amended.  On Python 2, an overflow the library signals (an
    exception whose message starts with "dropped ") is not propagated by
    [Device.read] nor by [Device.write], and [Device.read] completes and
    returns the samples of the buffer.  On no interpreter is the overflow
    reported: whenever [Device.read] returns after an overflow, it returns
    the samples of the buffer and nothing else. *)
Theorem overflow_is_ignored (n t c : Z) (data : list float) (cyclic : bool)
    (w : world B) (msg msg' : string) (buf : list sample4) (b1 b2 : B) :
  prefix "dropped " msg = true ->
  prefix "dropped " msg' = true ->
  smu_read n t (cpp w) = ((CThrow (RuntimeError msg), buf), b1) ->
  smu_write (map to_c_float data) c cyclic (cpp w)
  = (CThrow (RuntimeError msg'), b2) ->
  Device.read Python2 smu_read n t w
  = (Return (map to_pysample buf),
     World b1 (calls w ++ [call_Device_read n t]) (indeterminate w))
  /\ fst (Device.write Python2 smu_write data c cyclic w)
     <> Raise (RuntimeError msg')
  /\ (forall python l,
        fst (Device.read python smu_read n t w) = Return l ->
        l = map to_pysample buf).
Proof.
  intros Hmsg Hmsg' Er Ew. split; [|split].
  - rewrite (surjective_pairing (Device.read Python2 smu_read n t w)).
    rewrite read_run, read_world, Er. cbn [fst snd]. now rewrite Hmsg.
  - rewrite write_run, Ew. cbn [fst]. rewrite Hmsg'.
    destruct (indeterminate w <? 0); discriminate.
  - intros python l. rewrite read_run, Er. cbn [fst snd].
    destruct python; [rewrite Hmsg|]; now intros [= <-].
Qed.

(** What [Device.write] does after an overflow on Python 2: its error code
    was never assigned, and the test of its sign reads whatever the C local
    held. *)
Lemma write_after_overflow (c : Z) (data : list float) (cyclic : bool)
    (w : world B) (msg : string) (b' : B) :
  prefix "dropped " msg = true ->
  smu_write (map to_c_float data) c cyclic (cpp w)
  = (CThrow (RuntimeError msg), b') ->
  fst (Device.write Python2 smu_write data c cyclic w)
  = if indeterminate w <? 0 then
      Raise (DeviceError "failed writing to device" (Some (indeterminate w)))
    else Return tt.
Proof.
  intros Hmsg Ew. rewrite write_run, Ew. cbn [fst]. now rewrite Hmsg.
Qed.

(** What an overflow does on Python 3: the handler asks the exception for
    its [message], which it does not have there. *)
Lemma overflow_on_python3 (n t c : Z) (data : list float) (cyclic : bool)
    (w : world B) (msg msg' : string) (buf : list sample4) (b1 b2 : B) :
  smu_read n t (cpp w) = ((CThrow (RuntimeError msg), buf), b1) ->
  smu_write (map to_c_float data) c cyclic (cpp w)
  = (CThrow (RuntimeError msg'), b2) ->
  fst (Device.read Python3 smu_read n t w)
  = Raise (AttributeError "'RuntimeError' object has no attribute 'message'")
  /\ fst (Device.write Python3 smu_write data c cyclic w)
     = Raise (AttributeError
                "'RuntimeError' object has no attribute 'message'").
Proof.
  intros Er Ew. now rewrite read_run, write_run, Er, Ew.
Qed.
End Overflow.

Lemma overflow_is_ignored_witness :
  Device.read Python2 Scripted.read 1 (-1) (overflowed 0)
  = (Return [((1, 2), (3, 4))%float],
     World (cpp (overflowed 0)) [call_Device_read 1 (-1)] 0)
  /\ fst (Device.write Python2 Scripted.write [1%float] 0 false (overflowed 0))
     <> Raise (RuntimeError "dropped 5 samples").
Proof.
  pose proof (overflow_is_ignored Scripted.read Scripted.write 1 (-1) 0
                [1%float] false (overflowed 0) "dropped 5 samples"
                "dropped 5 samples" [one_sample] (cpp (overflowed 0))
                (cpp (overflowed 0)) eq_refl eq_refl eq_refl eq_refl)
    as (Hr & Hw & _).
  split; assumption.
Defined.

(** C2, as stated, fails.  On Python 2, after an overflow [Device.read] and
    [Device.write] return exactly what they return when nothing was dropped:
    no counter or warning comes with the data.  On Python 3 the overflow
    makes [Device.read] raise. *)
Lemma overflow_is_not_reported :
  fst (fst (Scripted.read 1 (-1) (cpp (overflowed 0))))
  = CThrow (RuntimeError "dropped 5 samples")
  /\ fst (Device.read Python2 Scripted.read 1 (-1) (overflowed 0))
     = Return [((1, 2), (3, 4))%float]
  /\ fst (Device.read Python2 Scripted.read 1 (-1) (overflowed 0))
     = fst (Device.read Python2 Scripted.read 1 (-1) delivered)
  /\ fst (Device.write Python2 Scripted.write [1%float] 0 false (overflowed 0))
     = fst (Device.write Python2 Scripted.write [1%float] 0 false healthy)
  /\ fst (Device.read Python3 Scripted.read 1 (-1) (overflowed 0))
     = Raise (AttributeError
                "'RuntimeError' object has no attribute 'message'").
Proof. repeat split. Qed.

(** The overflow path of [Device.write] on Python 2 at an error code left
    negative: the call raises DeviceError although the library reported an
    overflow only. *)
Lemma write_after_overflow_reads_unset_errcode :
  fst (Device.write Python2 Scripted.write [1%float] 0 false (overflowed (-7)))
  = Raise (DeviceError "failed writing to device" (Some (-7))).
Proof. reflexivity. Qed.

(** ** The binding over the device of the specification *)

Section OverSpecDevice.
Variable python : interpreter.
Variable status : SpecDevice.error -> Z.
Variable fits : Z -> Z -> bool.




(** C3.  Over the device of the specification, assigning a mode to a
    channel while the session is RUNNING is rejected: the binding raises a
    DeviceError carrying the InvalidState status and the device is
    unchanged.  While the session is IDLE the assignment succeeds and
    reading the channel's mode afterwards gives the mode just set. *)
Theorem set_mode_rejected_running_reflected_idle (w : world SpecDevice.t)
    (c : Z) (m : Mode.t) :
  status SpecDevice.InvalidState <> 0 ->
  c = 0 \/ c = 1 ->
  (SpecDevice.state (cpp w) = SpecDevice.RUNNING ->
   Channel.mode_set (SpecDevice.set_mode status) c (PyMode m) w
   = (Raise (DeviceError ("failed setting mode " ++ py_str (PyMode m) ++ ": ")
               (Some (status SpecDevice.InvalidState))),
      World (cpp w) (calls w ++ [call_Device_set_mode c (Mode.value m)])
        (indeterminate w)))
  /\ (SpecDevice.state (cpp w) = SpecDevice.IDLE ->
      exists w',
        Channel.mode_set (SpecDevice.set_mode status) c (PyMode m) w
        = (Return tt, w')
        /\ fst (Channel.mode_get (SpecDevice.get_mode status) c w') = Return m).
Proof.
  intros Hcode Hc. apply Z.eqb_neq in Hcode.
  assert (Hvalid : negb (existsb (fun m0 => Mode.value m0 =? Mode.value m)
                           Mode.members)
                   || negb ((c =? 0) || (c =? 1)) = false).
  { destruct Hc as [-> | ->]; now destruct m. }
  split; intros Hst.
  - unfold Channel.mode_set, bind, invoke, SpecDevice.set_mode.
    cbn [in_Mode negb py_value ret cpp calls indeterminate].
    rewrite Hvalid, Hst. cbn [fst snd]. rewrite Hcode. reflexivity.
  - unfold Channel.mode_set, bind, invoke, SpecDevice.set_mode.
    cbn [in_Mode negb py_value ret cpp calls indeterminate].
    rewrite Hvalid, Hst. cbn [fst snd negb Z.eqb].
    eexists. split; [reflexivity|].
    unfold Channel.mode_get, bind, invoke, SpecDevice.get_mode.
    cbn [cpp SpecDevice.modes].
    destruct Hc as [-> | ->]; destruct m; reflexivity.
Qed.
End OverSpecDevice.



Lemma set_mode_rejected_running_reflected_idle_witness :
  Channel.mode_set (SpecDevice.set_mode errno_of) 1 (PyMode Mode.SIMV)
    (spec_world SpecDevice.RUNNING [] None 0 false)
  = (Raise (DeviceError "failed setting mode Mode.SIMV: " (Some (-16))),
     World (cpp (spec_world SpecDevice.RUNNING [] None 0 false))
       [call_Device_set_mode 1 2] 0)
  /\ exists w',
       Channel.mode_set (SpecDevice.set_mode errno_of) 1 (PyMode Mode.SIMV)
         (spec_world SpecDevice.IDLE [] None 0 false) = (Return tt, w')
       /\ fst (Channel.mode_get (SpecDevice.get_mode errno_of) 1 w')
          = Return Mode.SIMV.
Proof.
  assert (Hcode : errno_of SpecDevice.InvalidState <> 0) by discriminate.
  split.
  - exact (proj1 (set_mode_rejected_running_reflected_idle errno_of
                    (spec_world SpecDevice.RUNNING [] None 0 false) 1 Mode.SIMV
                    Hcode (or_intror eq_refl)) eq_refl).
  - exact (proj2 (set_mode_rejected_running_reflected_idle errno_of
                    (spec_world SpecDevice.IDLE [] None 0 false) 1 Mode.SIMV
                    Hcode (or_intror eq_refl)) eq_refl).
Defined.

(** * Further properties of the binding *)

(** ** Session: the status of the library's calls *)

Section SessionStatus.
Context {B H R : Type}.
Variable smu_configure : Z -> B -> Z * B.
Variable smu_run : Z -> B -> Z * B.
Variable smu_start : Z -> B -> Z * B.
Variable smu_scan : B -> Z * B.
Variable smu_add_all : B -> Z * B.
Variable smu_add : H -> B -> Z * B.
Variable smu_remove : H -> bool -> B -> Z * B.
Variable smu_destroy : H -> B -> Z * B.
Variable smu_cancel : B -> Z * B.
Variable smu_wait_for_completion : B -> B.
Variable smu_flash_firmware : string -> option H -> B -> cpp_result R * B.

Lemma status_checked (exn : string -> option Z -> pyexn) (msg : string)
    (f : B -> Z * B) :
  reports_status exn f
    (errcode <- call_cpp f ;;
     if negb (errcode =? 0) then raise (exn msg (Some errcode)) else ret tt).
Proof.
  intros w. unfold bind, call_cpp.
  destruct (f (cpp w)) as [e b']. simpl.
  destruct (Z.eqb_spec e 0) as [-> | Hne]; simpl.
  - repeat split. intros Hne. now destruct Hne.
  - repeat split.
    + intros He. now destruct Hne.
    + intros _. now exists msg.
Qed.

(** X1.  [scan], [add_all], [add], [remove], [destroy] and [cancel] each
    run their library call once, return normally when its status is 0 and
    otherwise raise a SessionError that carries the status with its sign;
    a positive status is a failure too.  [Session(add_all=False)] touches
    nothing, [Session(add_all=True)] is [add_all()], and
    [wait_for_completion] never raises. *)
Theorem session_calls_report_status (dev : H) (detached : bool) (w : world B) :
  reports_status SessionError smu_scan (Session.scan smu_scan)
  /\ reports_status SessionError smu_add_all (Session.add_all smu_add_all)
  /\ reports_status SessionError (smu_add dev) (Session.add smu_add dev)
  /\ reports_status SessionError (smu_remove dev detached)
       (Session.remove smu_remove dev detached)
  /\ reports_status SessionError (smu_destroy dev)
       (Session.destroy smu_destroy dev)
  /\ reports_status SessionError smu_cancel (Session.cancel smu_cancel)
  /\ Session.init smu_add_all false w = (Return tt, w)
  /\ Session.init smu_add_all true w = Session.add_all smu_add_all w
  /\ Session.wait_for_completion smu_wait_for_completion w
     = (Return tt,
        World (smu_wait_for_completion (cpp w)) (calls w) (indeterminate w)).
Proof.
  repeat split; try apply status_checked; apply (status_checked SessionError).
Qed.

(** X2.  A sample rate or a number of samples from 0 up to the largest C
    [int] reaches the library unchanged, in exactly one call, whose status
    is reported: 0 returns normally and any other status raises
    SessionError with it.  A value above the range of a C [int] raises
    OverflowError before any call. *)
Theorem session_int_arguments_in_range (n above : Z) (w : world B) :
  0 <= n <= INT_MAX ->
  INT_MAX < above ->
  calls (snd (Session.configure smu_configure n w))
  = calls w ++ [call_Session_configure n]
  /\ calls (snd (Session.run smu_run n w)) = calls w ++ [call_Session_run n]
  /\ calls (snd (Session.start smu_start n w))
     = calls w ++ [call_Session_start n]
  /\ fst (Session.configure smu_configure n w)
     = (if fst (smu_configure n (cpp w)) =? 0 then Return tt
        else Raise (SessionError "failed configuring device"
                      (Some (fst (smu_configure n (cpp w))))))
  /\ fst (Session.run smu_run n w)
     = (if fst (smu_run n (cpp w)) =? 0 then Return tt
        else Raise (SessionError "failed running session stream"
                      (Some (fst (smu_run n (cpp w))))))
  /\ fst (Session.start smu_start n w)
     = (if fst (smu_start n (cpp w)) =? 0 then Return tt
        else Raise (SessionError "failed starting session stream"
                      (Some (fst (smu_start n (cpp w))))))
  /\ Session.configure smu_configure above w = (Raise OverflowError, w)
  /\ Session.run smu_run above w = (Raise OverflowError, w)
  /\ Session.start smu_start above w = (Raise OverflowError, w).
Proof.
  intros Hn Habove.
  assert (Hin : as_c_int n w = (Return n, w)).
  { unfold as_c_int, INT_MIN, INT_MAX in *.
    replace (- 2 ^ 31 <=? n) with true by (symmetry; apply Z.leb_le; lia).
    now replace (n <=? 2 ^ 31 - 1) with true
      by (symmetry; apply Z.leb_le; lia). }
  assert (Hout : as_c_int above w = (Raise OverflowError, w)).
  { unfold as_c_int, INT_MIN, INT_MAX in *.
    replace (above <=? 2 ^ 31 - 1) with false
      by (symmetry; apply Z.leb_gt; lia).
    now rewrite andb_false_r. }
  assert (Hpos : (n <? 0) = false) by (apply Z.ltb_ge; lia).
  unfold Session.configure, Session.run, Session.start, bind, invoke.
  rewrite Hin, Hout, Hpos.
  destruct (smu_configure n (cpp w)) as [e1 b1].
  destruct (smu_run n (cpp w)) as [e2 b2].
  destruct (smu_start n (cpp w)) as [e3 b3]. simpl.
  destruct (e1 =? 0), (e2 =? 0), (e3 =? 0); repeat split.
Qed.

(** X3.  [flash_firmware] returns what the library returns, turns a
    RuntimeError of the library into a SessionError with the same message
    and no code (also when the message starts with "dropped "), and lets
    every other exception through unchanged. *)
Theorem flash_firmware_outcome (file : string) (dev : option H) (w : world B) :
  fst (Session.flash_firmware smu_flash_firmware file dev w)
  = match fst (smu_flash_firmware file dev (cpp w)) with
    | CRet r => Return r
    | CThrow (RuntimeError msg) => Raise (SessionError msg None)
    | CThrow e => Raise e
    end
  /\ snd (Session.flash_firmware smu_flash_firmware file dev w)
     = World (snd (smu_flash_firmware file dev (cpp w))) (calls w)
         (indeterminate w).
Proof.
  unfold Session.flash_firmware, try_except, bind, call_cpp.
  replace (match dev with None => None | Some d => Some d end) with dev
    by now destruct dev.
  destruct (smu_flash_firmware file dev (cpp w)) as [[r|e] b']; simpl.
  - now split.
  - destruct e; now split.
Qed.
End SessionStatus.

Lemma session_int_arguments_in_range_witness :
  calls (snd (Session.configure Scripted.configure 0 healthy))
  = [call_Session_configure 0]
  /\ Session.run Scripted.run (2 ^ 31) healthy = (Raise OverflowError, healthy).
Proof.
  assert (H1 : 0 <= 0 <= INT_MAX) by (unfold INT_MAX; lia).
  assert (H2 : INT_MAX < 2 ^ 31) by (unfold INT_MAX; lia).
  pose proof (session_int_arguments_in_range Scripted.configure Scripted.run
                Scripted.start 0 (2 ^ 31) healthy H1 H2)
    as (Hc & _ & _ & _ & _ & _ & _ & Hr & _).
  split; assumption.
Defined.

(** ** Device: reading and writing *)

Lemma of_to_pysample (x : sample4) : of_pysample (to_pysample x) = x.
Proof. now destruct x as [[[a b] c] d]. Qed.

Lemma map_of_to_pysample (buf : list sample4) :
  map of_pysample (map to_pysample buf) = buf.
Proof.
  rewrite map_map. rewrite <- (map_id buf) at 2.
  apply map_ext. exact of_to_pysample.
Qed.

Section ReadWrite.
Context {B : Type}.
Variable python : interpreter.
Variable smu_read : Z -> Z -> B -> (cpp_result Z * list sample4) * B.
Variable smu_write : list float -> Z -> bool -> B -> cpp_result Z * B.
Variable smu_samba_mode : B -> Z * B.
Variable smu_write_calibration : option string -> B -> Z * B.

(** X4.  When the library's read returns a status that is not negative,
    [Device.read] returns the samples of the buffer, all of them and in
    their order, each regrouped as ((x0, x1), (x2, x3)): flattening the
    result gives back the buffer.  The count the library returned plays no
    part: the length of the result is the length of the buffer. *)
Theorem read_returns_the_buffer (n t : Z) (w : world B) (r : Z)
    (buf : list sample4) (b' : B) :
  smu_read n t (cpp w) = ((CRet r, buf), b') ->
  0 <= r ->
  exists l,
    fst (Device.read python smu_read n t w) = Return l
    /\ map of_pysample l = buf
    /\ List.length l = List.length buf.
Proof.
  intros E Hr. exists (map to_pysample buf).
  rewrite read_run, E. simpl.
  replace (r <? 0) with false by (symmetry; apply Z.ltb_ge; lia).
  split; [reflexivity|]. split.
  - apply map_of_to_pysample.
  - apply length_map.
Qed.

(** X5.  [Device.read] returns normally in two cases only: the call into
    the library returned a status that is not negative, or, on Python 2,
    it signalled dropped samples; it then returns the samples of the
    buffer.  Every exception it raises is a DeviceError, the exception of
    the call itself unchanged (from the conversion of an argument or from
    the library), or, on Python 3 when the call raised a RuntimeError, the
    AttributeError of [e.message].  A SystemError of the call always
    becomes a DeviceError, whatever its message. *)
Theorem read_returns_iff (n t : Z) (w : world B) (l : list pysample) :
  (fst (Device.read python smu_read n t w) = Return l <->
   l = map to_pysample (snd (fst (smu_read n t (cpp w))))
   /\ match fst (fst (smu_read n t (cpp w))) with
      | CRet r => 0 <= r
      | thrown => python = Python2 /\ is_overflow thrown = true
      end)
  /\ (forall e,
        fst (Device.read python smu_read n t w) = Raise e ->
        (exists msg code, e = DeviceError msg code)
        \/ fst (fst (smu_read n t (cpp w))) = CThrow e
        \/ (python = Python3
            /\ (exists msg,
                  fst (fst (smu_read n t (cpp w))) = CThrow (RuntimeError msg))
            /\ e = AttributeError
                     "'RuntimeError' object has no attribute 'message'"))
  /\ (forall msg,
        fst (fst (smu_read n t (cpp w))) = CThrow (SystemError msg) ->
        fst (Device.read python smu_read n t w) = Raise (DeviceError msg None)).
Proof.
  rewrite read_run. cbv zeta.
  destruct (smu_read n t (cpp w)) as [[[r|e] buf] b']; cbn [fst snd].
  - destruct (Z.ltb_spec r 0); settle.
  - destruct e; cbn [is_overflow]; try (settle; fail).
    destruct python; [destruct (prefix "dropped " msg); settle|].
    settle. right. right. eauto.
Qed.

(** X6.  Unless the library signalled dropped samples, what [Device.write]
    does is settled by the library's answer alone, whatever the unassigned
    error code holds: it returns normally exactly when the library returned
    a status that is not negative (a positive status is no error), raises
    DeviceError with the status when it is negative, and with the message
    when the library threw SystemError. *)
Theorem write_settled_without_overflow (data : list float) (c : Z)
    (cyclic : bool) (w : world B) (garbage : Z) :
  is_overflow (fst (smu_write (map to_c_float data) c cyclic (cpp w)))
      = false ->
  fst (Device.write python smu_write data c cyclic
         (World (cpp w) (calls w) garbage))
  = fst (Device.write python smu_write data c cyclic w)
  /\ (fst (Device.write python smu_write data c cyclic w) = Return tt <->
      exists r,
        fst (smu_write (map to_c_float data) c cyclic (cpp w)) = CRet r
        /\ 0 <= r)
  /\ (forall r,
        fst (smu_write (map to_c_float data) c cyclic (cpp w)) = CRet r ->
        r < 0 ->
        fst (Device.write python smu_write data c cyclic w)
        = Raise (DeviceError "failed writing to device" (Some r)))
  /\ (forall msg,
        fst (smu_write (map to_c_float data) c cyclic (cpp w))
        = CThrow (SystemError msg) ->
        fst (Device.write python smu_write data c cyclic w)
        = Raise (DeviceError msg None)).
Proof.
  intros Hno. rewrite !write_run. cbn [cpp indeterminate].
  destruct (smu_write (map to_c_float data) c cyclic (cpp w)) as [[r|e] b'];
    cbn [fst snd] in *.
  - destruct (Z.ltb_spec r 0); settle.
  - destruct e; cbn [is_overflow] in Hno; try (settle; fail).
    destruct python; rewrite ?Hno; settle.
Qed.

(** X7.  The two status conventions of [Device]: [samba_mode] takes every
    status other than 0 for a failure and raises DeviceError with it, while
    [write_calibration] takes only a negative status for a failure and then
    raises the DeviceError "failed writing device calibration data", which
    carries no code; a missing file ([None]) goes to the library as the
    NULL path. *)
Theorem device_status_conventions (file : option string) (w : world B) :
  reports_status DeviceError smu_samba_mode (Device.samba_mode smu_samba_mode)
  /\ Device.write_calibration smu_write_calibration file w
     = (if fst (smu_write_calibration file (cpp w)) <? 0 then
          Raise (DeviceError "failed writing device calibration data" None)
        else Return tt,
        World (snd (smu_write_calibration file (cpp w))) (calls w)
          (indeterminate w))
  /\ (fst (Device.write_calibration smu_write_calibration file w) = Return tt
      <-> 0 <= fst (smu_write_calibration file (cpp w)))
  /\ (forall e,
        fst (Device.write_calibration smu_write_calibration file w) = Raise e ->
        e = DeviceError "failed writing device calibration data" None
        /\ code_of e = None).
Proof.
  split.
  { unfold Device.samba_mode.
    exact (status_checked DeviceError "failed to enable SAM-BA mode"
             smu_samba_mode). }
  unfold Device.write_calibration, bind, call_cpp.
  replace (match file with None => None | Some f => Some f end) with file
    by now destruct file.
  destruct (smu_write_calibration file (cpp w)) as [r b']. cbn [fst snd].
  destruct (Z.ltb_spec r 0); unfold raise, ret; cbn [fst snd]; settle.
Qed.
End ReadWrite.

Lemma read_returns_the_buffer_witness :
  exists l,
    fst (Device.read Python3 Scripted.read 5 0 delivered) = Return l
    /\ map of_pysample l = [one_sample]
    /\ List.length l = 1%nat.
Proof.
  apply (read_returns_the_buffer Python3 Scripted.read 5 0 delivered 1
      [one_sample]
           (cpp delivered) eq_refl).
  discriminate.
Defined.

Lemma write_settled_without_overflow_witness :
  fst (Device.write Python3 Scripted.write [1%float] 0 false
         (World (cpp (failing 3)) (calls (failing 3)) (-7)))
  = fst (Device.write Python3 Scripted.write [1%float] 0 false (failing 3))
  /\ fst (Device.write Python3 Scripted.write [1%float] 0 false (failing 3))
     = Return tt.
Proof.
  pose proof (write_settled_without_overflow Python3 Scripted.write [1%float] 0
      false
                (failing 3) (-7) eq_refl) as (Hg & Hr & _).
  split; [exact Hg|].
  apply Hr. exists 3. split; [reflexivity | discriminate].
Defined.

(** ** Channel: indices, waveforms and modes *)

Section Channels.
Context {B : Type}.
Variable python : interpreter.
Variable smu_read : Z -> Z -> B -> (cpp_result Z * list sample4) * B.
Variable smu_write : list float -> Z -> bool -> B -> cpp_result Z * B.
Variable smu_get_mode : Z -> B -> Z * B.
Variable smu_set_mode : Z -> Z -> B -> Z * B.

Lemma list_comp_out_of_range (c : Z) (xs : list pysample) (w : world B) :
  c < -2 \/ 1 < c ->
  list_comp (fun x => tuple2_getitem x c) xs w
  = (match xs with
     | [] => Return []
     | _ :: _ => Raise (IndexError "tuple index out of range")
     end, w).
Proof.
  intros Hc. destruct xs as [|x xs]; [reflexivity|].
  cbn [list_comp]. unfold bind, lift_result, tuple2_getitem.
  replace (c =? 0) with false by (symmetry; apply Z.eqb_neq; lia).
  replace (c =? -2) with false by (symmetry; apply Z.eqb_neq; lia).
  replace (c =? 1) with false by (symmetry; apply Z.eqb_neq; lia).
  replace (c =? -1) with false by (symmetry; apply Z.eqb_neq; lia).
  reflexivity.
Qed.

(** X8.  A channel bound to an index other than -2, -1, 0 or 1 cannot
    deliver a sample: [Channel.read] still reads from the device, and then
    raises IndexError when the device returned any sample (the samples read
    are lost), returns the empty list when it returned none, and passes on
    the device's exception when it raised. *)
Theorem channel_index_out_of_range (c n t : Z) (w : world B) :
  c < -2 \/ 1 < c ->
  Channel.read python smu_read c n t w
  = match Device.read python smu_read n t w with
    | (Return [], w') => (Return [], w')
    | (Return (_ :: _), w') =>
        (Raise (IndexError "tuple index out of range"), w')
    | (Raise e, w') => (Raise e, w')
    end.
Proof.
  intros Hc. unfold Channel.read, bind.
  destruct (Device.read python smu_read n t w) as [[xs|e] w']; [|reflexivity].
  rewrite (list_comp_out_of_range c xs w' Hc). now destruct xs.
Qed.

(** X9.  Negative indices count from the end of the sample: a channel bound
    to -1 reads what channel 1 (B) reads, and a channel bound to -2 what
    channel 0 (A) reads. *)
Theorem channel_negative_index_wraps (n t : Z) (w : world B) :
  Channel.read python smu_read (-1) n t w = Channel.read python smu_read 1 n t w
  /\ Channel.read python smu_read (-2) n t w
      = Channel.read python smu_read 0 n t w
  /\ Channel.get_samples python smu_read (-1) n w
      = Channel.get_samples python smu_read 1 n w
  /\ Channel.get_samples python smu_read (-2) n w
      = Channel.get_samples python smu_read 0 n w.
Proof. repeat split. Qed.

(** X10.  The channels a device creates are A, bound to 0, and B, bound to
    1, in this order; reading from either fails exactly when reading from
    the device fails, with the same exception, and leaves the library in
    the same state. *)
Theorem device_channels_fail_only_with_device (key : string) (c n t : Z)
    (w : world B) :
  In (key, c) Device_channels ->
  (key = "A" /\ c = 0 \/ key = "B" /\ c = 1)
  /\ (forall e,
        fst (Channel.read python smu_read c n t w) = Raise e
        <-> fst (Device.read python smu_read n t w) = Raise e)
  /\ snd (Channel.read python smu_read c n t w)
      = snd (Device.read python smu_read n t w).
Proof.
  intros Hin.
  assert (Hkc : key = "A" /\ c = 0 \/ key = "B" /\ c = 1).
  { destruct Hin as [[= <- <-] | [[= <- <-] | []]]; auto. }
  assert (Hc : c = 0 \/ c = 1) by (destruct Hkc as [[_ ->] | [_ ->]]; auto).
  split; [exact Hkc|].
  unfold Channel.read. rewrite (bind_list_comp_slice c _ w Hc). unfold fmap.
  destruct (Device.read python smu_read n t w) as [[xs|e'] w'];
    cbn [fst snd result_map]; (split; [|reflexivity]); intros e; split;
    intros E; (discriminate E || (injection E as <-; reflexivity)).
Qed.

(** X11.  A waveform reaches the library as C floats: [constant(value)]
    makes exactly one call of the library's write, on the channel's index,
    with a buffer of exactly 1000 copies of the value rounded to a C
    [float] and with [cyclic] set; [arbitrary(waveform, repeat)] makes
    exactly one call with every value of the waveform rounded to a C
    [float], in order, and [cyclic] set to [repeat].  Two values that round
    to the same C [float] cannot be told apart: [constant] does the same
    with either. *)
Theorem waveforms_reach_library_as_c_floats (c : Z) (value : float)
    (waveform : list float) (rep : bool) (w : world B) :
  snd (Channel.constant python smu_write c value w)
  = World
      (snd (smu_write (List.repeat (to_c_float value) 1000) c true (cpp w)))
      (calls w
       ++ [call_Device_write (List.repeat (to_c_float value) 1000) c true])
      (indeterminate w)
  /\ snd (Channel.arbitrary python smu_write c waveform rep w)
     = World (snd (smu_write (map to_c_float waveform) c rep (cpp w)))
         (calls w ++ [call_Device_write (map to_c_float waveform) c rep])
         (indeterminate w)
  /\ List.length (map to_c_float waveform) = List.length waveform
  /\ (forall value',
        to_c_float value' = to_c_float value ->
        Channel.constant python smu_write c value' w
        = Channel.constant python smu_write c value w).
Proof.
  split; [|split; [|split]].
  - unfold Channel.constant, Channel.write.
    now rewrite write_world, map_repeat.
  - unfold Channel.arbitrary, Channel.write. now rewrite write_world.
  - apply length_map.
  - intros value' Hv.
    unfold Channel.constant, Channel.write, Device.write.
    rewrite !map_repeat, Hv. reflexivity.
Qed.

Lemma mode_of_value_spec (v : Z) :
  match Mode.of_value v with
  | Some m => Mode.value m = v
  | None => v < 0 \/ 2 < v
  end.
Proof.
  unfold Mode.of_value, Mode.members. cbn [find Mode.value].
  destruct (Z.eqb_spec 0 v) as [<-|H0]; [reflexivity|].
  destruct (Z.eqb_spec 1 v) as [<-|H1]; [reflexivity|].
  destruct (Z.eqb_spec 2 v) as [<-|H2]; [reflexivity|]. lia.
Qed.

Lemma mode_value_injective (m m' : Mode.t) :
  Mode.value m = Mode.value m' -> m = m'.
Proof. destruct m, m'; cbn; intros E; congruence || discriminate. Qed.

Lemma mode_value_range (m : Mode.t) : 0 <= Mode.value m <= 2.
Proof. destruct m; cbn; lia. Qed.

(** X12.  [Mode(v)] and [.value] are inverse of each other: [Mode(m.value)]
    is [m], a member found for [v] has the value [v], and no member is found
    exactly for the values below 0 or above 2. *)
Theorem mode_value_round_trip (m : Mode.t) (v : Z) :
  Mode.of_value (Mode.value m) = Some m
  /\ (Mode.of_value v = Some m -> Mode.value m = v)
  /\ (Mode.of_value v = None <-> v < 0 \/ 2 < v).
Proof.
  pose proof (mode_of_value_spec v) as Hv.
  pose proof (mode_value_range m) as Hm.
  split; [now destruct m|]. split.
  - intros E. rewrite E in Hv. exact Hv.
  - destruct (Mode.of_value v) as [m'|]; split; try discriminate; try tauto.
    pose proof (mode_value_range m'). lia.
Qed.

(** X13.  Reading [Channel.mode] returns the member whose value the
    library's [get_mode] returned; when that value is below 0 or above 2,
    an error status included, it raises ValueError, not DeviceError. *)
Theorem mode_get_outcome (c : Z) (w : world B) (m : Mode.t) :
  (fst (Channel.mode_get smu_get_mode c w) = Return m
   <-> Mode.value m = fst (smu_get_mode c (cpp w)))
  /\ (fst (smu_get_mode c (cpp w)) < 0 \/ 2 < fst (smu_get_mode c (cpp w)) ->
      fst (Channel.mode_get smu_get_mode c w)
      = Raise (ValueError (str_int (fst (smu_get_mode c (cpp w)))
                           ++ " is not a valid Mode"))).
Proof.
  unfold Channel.mode_get, bind, invoke.
  destruct (smu_get_mode c (cpp w)) as [v b']. cbn [fst snd].
  pose proof (mode_of_value_spec v) as Hv.
  pose proof (mode_value_range m) as Hm.
  destruct (Mode.of_value v) as [m'|]; unfold ret, raise; cbn [fst].
  - pose proof (mode_value_range m'). split; [|lia]. split.
    + intros [= <-]. exact Hv.
    + intros E. f_equal. apply mode_value_injective. congruence.
  - split; [|reflexivity]. split; [discriminate | lia].
Qed.
End Channels.

Section ModeSetter.
Context {B : Type}.
Variable smu_set_mode : Z -> Z -> B -> Z * B.

(** X14.  Assigning to [Channel.mode] hands the library a mode only when
    the value assigned is a member of [Mode], and then the member's own
    value, which is 0, 1 or 2; the call then reports the library's status
    as a DeviceError.  For every other value no call is made. *)
Theorem mode_set_passes_member_value_only (c : Z) (v : pyval) (w : world B) :
  (in_Mode v = false
   /\ calls (snd (Channel.mode_set smu_set_mode c v w)) = calls w)
  \/ (exists m,
        v = PyMode m
        /\ 0 <= Mode.value m <= 2
        /\ calls (snd (Channel.mode_set smu_set_mode c v w))
           = calls w ++ [call_Device_set_mode c (Mode.value m)]
        /\ fst (Channel.mode_set smu_set_mode c v w)
           = if fst (smu_set_mode c (Mode.value m) (cpp w)) =? 0 then Return tt
             else Raise
                    (DeviceError ("failed setting mode " ++ py_str v ++ ": ")
                       (Some (fst (smu_set_mode c (Mode.value m) (cpp w)))))).
Proof.
  destruct v; try (left; split; reflexivity).
  right. exists m. split; [reflexivity|]. split; [apply mode_value_range|].
  unfold Channel.mode_set, bind, invoke. cbn [in_Mode negb py_value ret].
  destruct (smu_set_mode c (Mode.value m) (cpp w)) as [e b']. cbn [fst snd].
  destruct (e =? 0); split; reflexivity.
Qed.
End ModeSetter.

Lemma waveforms_reach_library_as_c_floats_witness :
  to_c_float 0x1.999999999999ap-4 <> 0x1.999999999999ap-4%float
  /\ calls (snd (Channel.arbitrary Python3 Scripted.write 1
                   [0x1p-1; 0x1.000003p0]%float false healthy))
     = [call_Device_write [0x1p-1; 0x1.000004p0]%float 1 false]
  /\ Channel.constant Python3 Scripted.write 0 0x1.999999999999bp-4 healthy
     = Channel.constant Python3 Scripted.write 0 0x1.999999999999ap-4 healthy.
Proof.
  split; [|split].
  - intros H. apply (f_equal Prim2SF) in H. vm_compute in H. discriminate.
  - rewrite (proj1 (proj2 (waveforms_reach_library_as_c_floats Python3
                             Scripted.write 1 0%float
                             [0x1p-1; 0x1.000003p0]%float false healthy))).
    vm_compute. reflexivity.
  - apply (proj2 (proj2 (proj2 (waveforms_reach_library_as_c_floats Python3
                                  Scripted.write 0 0x1.999999999999ap-4 []
                                  false healthy)))).
    vm_compute. reflexivity.
Defined.

Lemma channel_index_out_of_range_witness :
  Channel.read Python3 Scripted.read 2 1 0 delivered
  = (Raise (IndexError "tuple index out of range"),
     World (cpp delivered) [call_Device_read 1 0] 0).
Proof.
  assert (Hc : 2 < -2 \/ 1 < 2) by (right; reflexivity).
  exact (channel_index_out_of_range Python3 Scripted.read 2 1 0 delivered Hc).
Defined.

Lemma device_channels_fail_only_with_device_witness :
  In ("B", 1) Device_channels
  /\ snd (Channel.read Python3 Scripted.read 1 1 0 (failing (-5)))
     = snd (Device.read Python3 Scripted.read 1 0 (failing (-5)))
  /\ fst (Channel.read Python3 Scripted.read 1 1 0 (failing (-5)))
     = Raise (DeviceError "failed reading from device" (Some (-5))).
Proof.
  assert (Hin : In ("B", 1) Device_channels) by (right; left; reflexivity).
  pose proof (device_channels_fail_only_with_device Python3 Scripted.read "B" 1
      1 0
                (failing (-5)) Hin) as (_ & Hfail & Hstate).
  split; [exact Hin|]. split; [exact Hstate|].
  apply Hfail. reflexivity.
Defined.

(** ** The [samples] generators *)

Section Generators.
Context {B : Type}.
Variable python : interpreter.
Variable smu_read : Z -> Z -> B -> (cpp_result Z * list sample4) * B.

Lemma generator_next_pending {A} (read_batch : py B (list A)) (fuel : nat)
    (x : A) (rest : list A) :
  generator_next read_batch fuel (x :: rest) = ret (Yielded x rest).
Proof. now destruct fuel. Qed.

Lemma generator_take_pending {A} (read_batch : py B (list A)) (fuel : nat)
    (xs rest : list A) (w : world B) :
  generator_take read_batch fuel (List.length xs) (xs ++ rest) w
  = (Return (xs, rest), w).
Proof.
  induction xs as [|x xs IH]; [reflexivity|].
  cbn [List.length generator_take app].
  rewrite generator_next_pending. unfold bind, ret in *.
  now rewrite IH.
Qed.

(** X15.  Drawing from [Device.samples]: when the library's read of up to
    1000 samples (timeout 0) delivers a buffer that is not empty, the next
    items the generator yields are the samples of that buffer, all of them
    and in their order, and drawing them costs exactly one call of the
    library's read. *)
Theorem samples_draw_one_batch (fuel : nat) (w : world B) (r : Z)
    (buf : list sample4) (b' : B) :
  smu_read 1000 0 (cpp w) = ((CRet r, buf), b') ->
  0 <= r ->
  buf <> [] ->
  generator_take (Device.read python smu_read 1000 0) (S fuel) (List.length buf)
      [] w
  = (Return (map to_pysample buf, []),
     World b' (calls w ++ [call_Device_read 1000 0]) (indeterminate w)).
Proof.
  intros E Hr Hne.
  assert (Hread : Device.read python smu_read 1000 0 w
                  = (Return (map to_pysample buf),
                     World b' (calls w ++ [call_Device_read 1000 0])
                       (indeterminate w))).
  { rewrite (surjective_pairing (Device.read python smu_read 1000 0 w)).
    rewrite read_run, read_world, E. cbn [fst snd].
    now replace (r <? 0) with false by (symmetry; apply Z.ltb_ge; lia). }
  destruct buf as [|x xs]; [now destruct Hne|].
  pose proof (generator_take_pending (Device.read python smu_read 1000 0) (S
      fuel)
                (map to_pysample xs) []
                (World b' (calls w ++ [call_Device_read 1000 0])
                   (indeterminate w))) as Hrest.
  rewrite length_map, app_nil_r in Hrest.
  cbn [List.length generator_take generator_next]. unfold bind at 1 2.
  rewrite Hread. cbn [map]. rewrite generator_next_pending.
  unfold ret at 1. unfold bind. rewrite Hrest. reflexivity.
Qed.

(** X16.  [Device.samples] polls: its reads use timeout 0, so while the
    library has no sample to deliver the generator yields nothing and calls
    the library's read once per round, round after round. *)
Theorem samples_polls_while_empty (fuel : nat) (w : world B) :
  (forall b, smu_read 1000 0 b = ((CRet 0, []), b)) ->
  Device.samples_next python smu_read fuel [] w
  = (Return Polling,
     World (cpp w) (calls w ++ List.repeat (call_Device_read 1000 0) fuel)
       (indeterminate w)).
Proof.
  intros Hempty. unfold Device.samples_next.
  revert w. induction fuel as [|fuel IH]; intros w.
  - cbn [generator_next List.repeat ret]. rewrite app_nil_r. now destruct w.
  - cbn [generator_next]. unfold bind.
    rewrite (surjective_pairing (Device.read python smu_read 1000 0 w)).
    rewrite read_run, read_world, Hempty. cbn [fst snd map].
    change (0 <? 0) with false. cbv iota.
    rewrite IH. cbn [cpp calls indeterminate List.repeat].
    now rewrite <- app_assoc.
Qed.

(** X17.  A failure of the device's read ends the draw with the same
    exception, while an item still pending from the current batch is
    yielded without any call into the library. *)
Theorem samples_failure_and_pending (fuel : nat) (x : pysample)
    (rest : list pysample) (w : world B) (e : pyexn) :
  fst (Device.read python smu_read 1000 0 w) = Raise e ->
  fst (Device.samples_next python smu_read (S fuel) [] w) = Raise e
  /\ Device.samples_next python smu_read fuel (x :: rest) w
     = (Return (Yielded x rest), w).
Proof.
  intros Hfail. split; [|now destruct fuel].
  unfold Device.samples_next. cbn [generator_next]. unfold bind.
  destruct (Device.read python smu_read 1000 0 w)
      as [[xs|e'] w']; cbn [fst] in *.
  - discriminate.
  - now injection Hfail as <-.
Qed.

(** X18.  For a channel bound to 0 or 1, [Channel.samples] yields the
    channel's slice of what [Device.samples] yields, item by item, with the
    same calls into the library. *)
Theorem channel_samples_is_projection (c : Z) (fuel : nat)
    (pending : list pysample) (w : world B) :
  c = 0 \/ c = 1 ->
  Channel.samples_next python smu_read c fuel (map (channel_slice c) pending) w
  = fmap (drawn_map (channel_slice c))
      (Device.samples_next python smu_read fuel pending) w.
Proof.
  intros Hc. unfold Channel.samples_next, Device.samples_next.
  revert pending w. induction fuel as [|fuel IH]; intros pending w.
  - now destruct pending.
  - destruct pending as [|x rest]; [|reflexivity].
    cbn [map generator_next]. unfold Channel.read.
    unfold bind at 1. rewrite (bind_list_comp_slice c _ w Hc).
    unfold fmap at 1 2, bind.
    destruct (Device.read python smu_read 1000 0 w) as [[xs|e] w'];
      cbn [result_map]; [|reflexivity].
    rewrite IH. reflexivity.
Qed.
End Generators.

Lemma samples_draw_one_batch_witness :
  generator_take (Device.read Python3 Scripted.read 1000 0) 1 1 [] delivered
  = (Return ([((1, 2), (3, 4))%float], []),
     World (cpp delivered) [call_Device_read 1000 0] 0).
Proof.
  apply (samples_draw_one_batch Python3 Scripted.read 0 delivered 1 [one_sample]
           (cpp delivered) eq_refl); discriminate.
Defined.

Lemma samples_polls_while_empty_witness :
  Device.samples_next Python3 no_samples 3 [] (World tt [] 0)
  = (Return Polling,
     World tt [call_Device_read 1000 0; call_Device_read 1000 0;
               call_Device_read 1000 0] 0).
Proof.
  exact (samples_polls_while_empty Python3 no_samples 3 (World tt [] 0)
           (fun b => eq_refl)).
Defined.

Lemma samples_failure_and_pending_witness :
  fst (Device.samples_next Python3 Scripted.read 2 [] (failing (-5)))
  = Raise (DeviceError "failed reading from device" (Some (-5))).
Proof.
  exact (proj1 (samples_failure_and_pending Python3 Scripted.read 1
                  (to_pysample one_sample) [] (failing (-5)) _ eq_refl)).
Defined.

Lemma channel_samples_is_projection_witness :
  fst (Channel.samples_next Python3 Scripted.read 1 1 [] delivered)
  = Return (Yielded (3, 4)%float []).
Proof.
  pose proof (channel_samples_is_projection Python3 Scripted.read 1 1 []
      delivered
                (or_intror eq_refl)) as Hp.
  cbn [map] in Hp. rewrite Hp. reflexivity.
Defined.

(** ** Device: control transfers from the device *)

Lemma length_ords (s : string) : List.length (ords s) = String.length s.
Proof.
  unfold ords. rewrite length_map.
  induction s as [|a s IH]; [reflexivity|]. cbn. now rewrite IH.
Qed.

Lemma ords_are_bytes (s : string) : Forall (fun z => 0 <= z < 256) (ords s).
Proof.
  unfold ords. apply Forall_map.
  induction s as [|a s IH]; constructor; [|exact IH].
  pose proof (nat_ascii_bounded a). lia.
Qed.

Lemma length_zero_bytes (n : Z) : String.length (zero_bytes n) = Z.to_nat n.
Proof.
  unfold zero_bytes. induction (Z.to_nat n) as [|k IH]; [reflexivity|].
  cbn. now rewrite IH.
Qed.

Lemma ords_zero_bytes (n : Z) :
  ords (zero_bytes n) = List.repeat 0 (Z.to_nat n).
Proof.
  unfold zero_bytes, ords. induction (Z.to_nat n) as [|k IH]; [reflexivity|].
  cbn [List.repeat string_of_list_ascii list_ascii_of_string map].
  now rewrite IH.
Qed.

Section ControlTransferIn.
Context {B : Type}.
Variable python : interpreter.
Variable smu_ctrl_transfer :
  Z -> Z -> Z -> Z -> string -> Z -> Z -> B -> (Z * string) * B.

(** X19.  A control transfer from the device that succeeds returns
    [map(ord, data)] for the data buffer as it is after the transfer.  On
    Python 2 that is the list of the buffer's bytes, in order, one number
    from 0 to 255 per byte: as many numbers as the buffer has bytes,
    whatever count the library returned.  On Python 3 it is the map not yet
    evaluated, and evaluating it raises TypeError unless the buffer is
    empty. *)
Theorem ctrl_transfer_in_returns_whole_buffer (bm req val idx : Z)
    (data : pyval) (wLength timeout : Z) (w : world B) (r : Z)
    (data' : string) (b' : B) :
  is_IN bm = true ->
  smu_ctrl_transfer bm req val idx (request_data python bm data wLength)
    (request_length bm wLength) timeout (cpp w) = ((r, data'), b') ->
  0 <= r ->
  exists m,
    fst (Device.ctrl_transfer python smu_ctrl_transfer bm req val idx data
           wLength timeout w) = Return m
    /\ (python = Python2 ->
        m = Device.Payload (ords data')
        /\ consume m = Return (ords data')
        /\ List.length (ords data') = String.length data'
        /\ Forall (fun z => 0 <= z < 256) (ords data'))
    /\ (python = Python3 ->
        m = Device.LazyMap data'
        /\ (data' <> "" ->
            consume m
            = Raise (TypeError
                       "ord() expected string of length 1, but int found"))).
Proof.
  intros Hin E Hr. exists (Device.map_ord python data').
  rewrite ctrl_transfer_run, E. cbn [fst].
  replace (r <? 0) with false by (symmetry; apply Z.ltb_ge; lia).
  rewrite Hin. split; [reflexivity|]. split; intros ->; cbn.
  - repeat split; [apply length_ords | apply ords_are_bytes].
  - split; [reflexivity|]. intros Hne. now destruct data'.
Qed.

(** X20.  A control transfer from the device called with [data] 0: on
    Python 2 the library gets a buffer of [wLength] zero bytes, and when
    it leaves the buffer as it is and reports success the call returns
    [wLength] zeros; on Python 3 the library gets the one byte "0" as the
    buffer.  On both it gets [wLength] as the length field. *)
Theorem ctrl_transfer_in_zero_filled (bm req val idx wLength timeout : Z)
    (w : world B) :
  is_IN bm = true ->
  0 <= wLength ->
  calls (snd (Device.ctrl_transfer python smu_ctrl_transfer bm req val idx
                (PyInt 0) wLength timeout w))
  = calls w
    ++ [call_Device_ctrl_transfer bm req val idx
          match python with
          | Python2 => zero_bytes wLength
          | Python3 => "0"
          end wLength timeout]
  /\ Z.of_nat (String.length (zero_bytes wLength)) = wLength
  /\ (python = Python2 ->
      forall r b',
        smu_ctrl_transfer bm req val idx (zero_bytes wLength) wLength timeout
          (cpp w) = ((r, zero_bytes wLength), b') ->
        0 <= r ->
        fst (Device.ctrl_transfer python smu_ctrl_transfer bm req val idx
               (PyInt 0) wLength timeout w)
        = Return (Device.Payload (List.repeat 0 (Z.to_nat wLength)))).
Proof.
  intros Hin Hlen.
  rewrite ctrl_transfer_run. unfold request_data, request_length.
  rewrite Hin. split; [|split].
  - destruct python; cbn [equals_str_literal py_str];
      [change (String.eqb (str_int 0) "0") with true; cbv iota|];
      destruct (smu_ctrl_transfer _ _ _ _ _ _ _ _) as [[r data'] b'];
      reflexivity.
  - rewrite length_zero_bytes. lia.
  - intros -> r b' E Hr. cbn [equals_str_literal py_str].
    change (String.eqb (str_int 0) "0") with true. cbv iota.
    rewrite E. cbn [fst].
    replace (r <? 0) with false by (symmetry; apply Z.ltb_ge; lia).
    cbn [Device.map_ord]. now rewrite ords_zero_bytes.
Qed.
End ControlTransferIn.

Lemma ctrl_transfer_in_returns_whole_buffer_witness :
  fst (Device.ctrl_transfer Python2 Scripted.ctrl_transfer 0xC0 1 2 3 (PyInt 0)
         4 100 answering)
  = Return (Device.Payload [97; 98; 0; 0])
  /\ exists m,
       fst (Device.ctrl_transfer Python3 Scripted.ctrl_transfer 0xC0 1 2 3
              (PyInt 0) 4 100 answering) = Return m
       /\ consume m
          = Raise (TypeError
                     "ord() expected string of length 1, but int found").
Proof.
  assert (H2 : 0 <= 2) by discriminate.
  destruct (ctrl_transfer_in_returns_whole_buffer Python2
              Scripted.ctrl_transfer 0xC0 1 2 3 (PyInt 0) 4 100 answering 2
              (Scripted.reply (cpp answering)) (cpp answering) eq_refl eq_refl
              H2) as (m2 & Hm2 & H2' & _).
  destruct (ctrl_transfer_in_returns_whole_buffer Python3
              Scripted.ctrl_transfer 0xC0 1 2 3 (PyInt 0) 4 100 answering 2
              (Scripted.reply (cpp answering)) (cpp answering) eq_refl eq_refl
              H2) as (m3 & Hm3 & _ & H3').
  split.
  - rewrite Hm2. destruct (H2' eq_refl) as (-> & _). reflexivity.
  - exists m3. split; [exact Hm3|].
    destruct (H3' eq_refl) as (_ & Hc). apply Hc. discriminate.
Defined.

Lemma ctrl_transfer_in_zero_filled_witness :
  calls (snd (Device.ctrl_transfer Python2 Scripted.ctrl_transfer 0xC0 1 2 3
                (PyInt 0) 3 100 healthy))
  = [call_Device_ctrl_transfer 0xC0 1 2 3 (zero_bytes 3) 3 100]
  /\ calls (snd (Device.ctrl_transfer Python3 Scripted.ctrl_transfer 0xC0 1 2 3
                   (PyInt 0) 3 100 healthy))
     = [call_Device_ctrl_transfer 0xC0 1 2 3 "0" 3 100].
Proof.
  assert (H3 : 0 <= 3) by discriminate.
  split.
  - exact (proj1 (ctrl_transfer_in_zero_filled Python2 Scripted.ctrl_transfer
                    0xC0 1 2 3 3 100 healthy eq_refl H3)).
  - exact (proj1 (ctrl_transfer_in_zero_filled Python3 Scripted.ctrl_transfer
                    0xC0 1 2 3 3 100 healthy eq_refl H3)).
Defined.

(** ** Device: what [set_led] and [ctrl_transfer] send *)

Section LedTransfers.
Context {B : Type}.
Variable python : interpreter.
Variable smu_ctrl_transfer :
  Z -> Z -> Z -> Z -> string -> Z -> Z -> B -> (Z * string) * B.

(** X21.  Whatever [set_led] is called with, every call it makes into the
    library is the control transfer of one of the LEDs red, green and blue:
    an OUT transfer with request 0x50 or 0x51, no payload and a timeout of
    100 ms.  The value of [LED.all] itself is never sent, and at most three
    transfers are made. *)
Theorem set_led_sends_single_led_transfers (led : pyval) (status : bool)
    (w : world B) :
  exists ls,
    calls (snd (Device.set_led python smu_ctrl_transfer led status w))
    = calls w ++ map (led_transfer status) ls
    /\ ~ In LED.all ls
    /\ (List.length ls <= 3)%nat.
Proof.
  destruct led as [| | | |m|l];
    try (exists []; rewrite app_nil_r; repeat split; [intros [] | cbn; lia]).
  destruct (LED.eqb l LED.all) eqn:El.
  - assert (l = LED.all) as -> by now destruct l.
    rewrite set_led_all_loop.
    destruct (for_each_calls (led_transfer status)
                (fun x =>
                   Device.ctrl_transfer python smu_ctrl_transfer 0x40
                     (if status then 0x50 else 0x51) (LED.value x) 0 (PyInt 0)
                     0 100 ;;; ret tt)
                (individual_leds python)
                (led_round_calls python smu_ctrl_transfer status) w)
      as (k & Hk & Hle & _).
    exists (firstn k (individual_leds python)).
    split; [exact Hk|]. split.
    + intros Hin. apply (individual_leds_single python LED.all); [|reflexivity].
      rewrite <- (firstn_skipn k (individual_leds python)).
      apply in_or_app. now left.
    + rewrite length_firstn.
      assert (List.length (individual_leds python) = 3%nat)
        by now destruct python.
      lia.
  - assert (Hl : l <> LED.all) by (intros ->; discriminate).
    exists [l].
    rewrite (set_led_single_calls python smu_ctrl_transfer l status w Hl).
    repeat split; [intros [E|[]]; now apply Hl | cbn; lia].
Qed.

(** X22.  For a control transfer from the device, only [data] 0 makes the
    binding allocate the buffer: any other [data] is itself the buffer, as
    its text, whatever [wLength] says, and [wLength] goes to the library
    unchanged. *)
Theorem ctrl_transfer_in_uses_given_buffer (bm req val idx : Z) (data : pyval)
    (wLength timeout : Z) (w : world B) :
  is_IN bm = true ->
  py_str data <> "0" ->
  calls (snd (Device.ctrl_transfer python smu_ctrl_transfer bm req val idx data
                wLength timeout w))
  = calls w
    ++ [call_Device_ctrl_transfer bm req val idx (py_str data) wLength timeout].
Proof.
  intros Hin Hdata. rewrite ctrl_transfer_run.
  unfold request_data, request_length. rewrite Hin.
  apply String.eqb_neq in Hdata.
  replace (equals_str_literal python (py_str data) "0") with false
    by (destruct python; cbn [equals_str_literal]; now rewrite ?Hdata).
  destruct (smu_ctrl_transfer bm req val idx (py_str data) wLength timeout
              (cpp w)) as [[r data'] b'].
  reflexivity.
Qed.
End LedTransfers.

Lemma ctrl_transfer_in_uses_given_buffer_witness :
  calls (snd (Device.ctrl_transfer Python3 Scripted.ctrl_transfer 0xC0 1 2 3
      (PyInt 7)
                64 100 healthy))
  = [call_Device_ctrl_transfer 0xC0 1 2 3 "7" 64 100].
Proof.
  apply (ctrl_transfer_in_uses_given_buffer Python3 Scripted.ctrl_transfer 0xC0
      1 2 3
           (PyInt 7) 64 100 healthy eq_refl).
  discriminate.
Defined.
